(** * Benchmark driver of the CLOUDSC dwarf: [run_fortran.core] and [f_fokoop]

    A shallow embedding of [drivers/run_fortran.py] (function [core]) and of
    [physics/_stencils/fccld.py] (function [f_fokoop]).

    Python values are represented as follows.
    - [int] is [Z].
    - [bytes] is [string] (a list of 8-bit characters).
    - [str] is the [string] holding its UTF-8 encoding; [bytes.decode("utf-8")]
      therefore is the identity on well-formed input and raises
      [UnicodeDecodeError] otherwise.  Splitting on ["\n"] or [" "] commutes
      with this representation because both are one-byte ASCII characters and
      no byte of a multi-byte sequence is below 0x80.
    - a raised exception is the left injection of a sum. *)

From Stdlib Require Import String Ascii List ZArith QArith Lia Bool.
From Stdlib Require Import DecimalString SpecFloat.
Import ListNotations.

Local Open Scope string_scope.
Local Open Scope list_scope.
Local Open Scope Z_scope.

(** ** Exceptions that [core] can raise *)

Inductive exn : Type :=
| RuntimeError (msg : string)   (* [raise RuntimeError(msg)] in [core] *)
| IndexError                    (* list index out of range *)
| ValueError                    (* [float] applied to a non-literal *)
| UnicodeDecodeError            (* [bytes.decode] on ill-formed UTF-8 *)
| Raised (cls msg : string).    (* whatever an imported helper raises *)

Definition result (A : Type) : Type := (exn + A)%type.

(** ** The Python built-ins used by [core] *)

Module Py.

(** [s.split(sep)] for a separator of length one.  The result is never
    empty: a string with [k] occurrences of [sep] yields [k + 1] pieces. *)
Fixpoint split (sep : ascii) (s : string) : list string :=
  match s with
  | EmptyString => [EmptyString]
  | String c rest =>
      if Ascii.eqb c sep then EmptyString :: split sep rest
      else match split sep rest with
           | [] => [String c EmptyString]
           | piece :: pieces => String c piece :: pieces
           end
  end.

(** [sep.join(pieces)]. *)
Fixpoint join (sep : ascii) (pieces : list string) : string :=
  match pieces with
  | [] => EmptyString
  | [p] => p
  | p :: ps => (p ++ String sep (join sep ps))%string
  end.

(** [c in s] for a character. *)
Fixpoint mem (c : ascii) (s : string) : bool :=
  match s with
  | EmptyString => false
  | String d rest => Ascii.eqb d c || mem c rest
  end.

(** [l[i]] with Python's negative indices. *)
Definition index {A : Type} (l : list A) (i : Z) : result A :=
  let n := Z.of_nat (length l) in
  let j := if i <? 0 then i + n else i in
  if (0 <=? j) && (j <? n) then
    match nth_error l (Z.to_nat j) with
    | Some x => inr x
    | None => inl IndexError
    end
  else inl IndexError.

(** [str(n)] for an [int]. *)
Definition str (n : Z) : string := NilZero.string_of_int (Z.to_int n).

(** [c != ""] as used in the list comprehension. *)
Definition nonempty (c : string) : bool :=
  match c with EmptyString => false | String _ _ => true end.

(** [s.startswith("/")] and [s.endswith("/")]. *)
Definition startswith_slash (s : string) : bool :=
  match s with String c _ => Ascii.eqb c "/" | EmptyString => false end.

Fixpoint endswith_slash (s : string) : bool :=
  match s with
  | EmptyString => false
  | String c EmptyString => Ascii.eqb c "/"
  | String _ rest => endswith_slash rest
  end.

(** [os.path.join(a, *p)] of [posixpath]. *)
Definition path_join (a : string) (p : list string) : string :=
  fold_left
    (fun path b =>
       if startswith_slash b then b
       else if negb (nonempty path) || endswith_slash path then (path ++ b)%string
       else (path ++ "/" ++ b)%string)
    p a.

Definition byte (c : ascii) : Z := Z.of_N (N_of_ascii c).

Definition between (lo hi : Z) (c : ascii) : bool :=
  (lo <=? byte c) && (byte c <=? hi).

(** Continuation bytes. *)
Definition cont : ascii -> bool := between 128 191.

(** Well-formedness of a UTF-8 byte sequence, as checked by the strict
    decoder: shortest form only, no surrogates, nothing above U+10FFFF. *)
Fixpoint utf8_valid (s : string) : bool :=
  match s with
  | EmptyString => true
  | String a r1 =>
      if between 0 127 a then utf8_valid r1
      else match r1 with
      | EmptyString => false
      | String b r2 =>
          if between 194 223 a then cont b && utf8_valid r2
          else match r2 with
          | EmptyString => false
          | String c r3 =>
              if between 224 239 a then
                (if between 224 224 a then between 160 191 b
                 else if between 237 237 a then between 128 159 b
                 else cont b)
                && cont c && utf8_valid r3
              else match r3 with
              | EmptyString => false
              | String d r4 =>
                  between 240 244 a
                  && (if between 240 240 a then between 144 191 b
                      else if between 244 244 a then between 128 143 b
                      else cont b)
                  && cont c && cont d && utf8_valid r4
              end
          end
      end
  end.

(** ASCII characters for which [str.isspace] holds. *)
Definition is_space (c : ascii) : bool :=
  between 9 13 c || between 28 32 c.

(** [b.decode("utf-8")]. *)
Definition decode (b : string) : result string :=
  if utf8_valid b then inr b else inl UnicodeDecodeError.

End Py.

(** ** Configuration objects

    [FortranConfig] and [IOConfig] are imported by the driver; only the
    attributes that [core] reads are represented. *)

Record FortranConfig : Type := {
  build_dir : string;
  precision : string;
  variant : string;
  nproma : Z;
  num_cols : Z;
  num_runs : Z;
  num_threads : Z
}.

Record IOConfig : Type := {
  output_csv_file : option string;
  host_name : option string
}.

(** ** The outside world

    [subprocess.run(..., capture_output=True)] returns a completed process;
    the child is assumed to start and to terminate.  What the [k]-th child
    (counting from zero) does with a given argument vector, what
    [os.path.exists] answers and the directory of the driver module are given
    by the world. *)

Record CompletedProcess : Type := {
  returncode : Z;
  stdout : string;
  stderr : string
}.

Record World : Type := {
  module_dir : string;                            (* os.path.dirname(__file__) *)
  path_exists : string -> bool;                   (* os.path.exists *)
  child : nat -> list string -> CompletedProcess  (* outcome of the k-th child *)
}.

(** The world in which the first child returns [out0] instead. *)
Definition with_warm_up (out0 : CompletedProcess) (w : World) : World :=
  {| module_dir := module_dir w;
     path_exists := path_exists w;
     child := fun k argv =>
       match k with O => out0 | S _ => child w k argv end |}.

(** The world in which every child after the first exits with [code], its
    output unchanged. *)
Definition with_exit_status (code : Z) (w : World) : World :=
  {| module_dir := module_dir w;
     path_exists := path_exists w;
     child := fun k argv =>
       match k with
       | O => child w k argv
       | S _ => {| returncode := code;
                   stdout := stdout (child w k argv);
                   stderr := stderr (child w k argv) |}
       end |}.

(** The variant tuples of the two [if]/[elif] tests in the measuring loop. *)

Definition cuda_variants : list string :=
  ["cuda"; "cuda-hoist"; "cuda-k-caching"].

Definition scc_variants : list string :=
  ["gpu-omp-scc-hoist"; "gpu-scc"; "gpu-scc-cuf"; "gpu-scc-cuf-k-caching";
   "gpu-scc-hoist"; "gpu-scc-k-caching"; "loki-scc-cuf-hoist"; "loki-scc-hoist"].

(** [x in t] for a tuple of strings. *)
Definition str_in (x : string) (t : list string) : bool :=
  existsb (String.eqb x) t.

Section Driver.

(** The type of Python floats and the built-in [float(str)]; [None] stands
    for the [ValueError] it raises. *)
Variable F : Type.
Variable float : string -> option F.

(** The row handed to [to_csv], in argument order. *)
Record csv_row : Type := {
  csv_file : string;
  csv_host : option string;
  csv_precision : string;
  csv_variant : string;
  csv_num_cols : Z;
  csv_num_threads : Z;
  csv_nproma : Z;
  csv_num_runs : Z;
  csv_runtime_mean : F;
  csv_runtime_stddev : F;
  csv_mflops_mean : F;
  csv_mflops_stddev : F
}.

(** The two helpers imported from [ifs_physics_common.utils.output]: what
    they return (or raise) is a parameter, that they were called is recorded
    in the trace. *)
Variable print_performance : Z -> list F -> list F -> result (F * F * F * F).
Variable to_csv : csv_row -> result unit.

(** Observable actions of one invocation, in program order. *)
Inductive event : Type :=
| Spawn (argv : list string)
| PrintPerformance (cols : Z) (runtime_l mflops_l : list F)
| ToCsv (row : csv_row).

Definition trace : Type := list event.

(** Number of children started so far. *)
Fixpoint spawned (tr : trace) : nat :=
  match tr with
  | [] => O
  | Spawn _ :: tr' => S (spawned tr')
  | _ :: tr' => spawned tr'
  end.

(** Computations that may raise and that extend the trace; the trace
    survives an exception. *)
Definition M (A : Type) : Type := trace -> result A * trace.

Definition ret {A} (x : A) : M A := fun tr => (inr x, tr).

Definition raise {A} (e : exn) : M A := fun tr => (inl e, tr).

Definition bind {A B} (m : M A) (k : A -> M B) : M B :=
  fun tr =>
    match m tr with
    | (inl e, tr') => (inl e, tr')
    | (inr x, tr') => k x tr'
    end.

Definition lift {A} (r : result A) : M A := fun tr => (r, tr).

Definition emit (e : event) : M unit := fun tr => (inr tt, tr ++ [e]).

Notation "x <- m ;; k" := (bind m (fun x => k))
  (at level 100, m at next level, right associativity).
Notation "m ;;; k" := (bind m (fun _ => k))
  (at level 100, right associativity).

Variable w : World.

Definition subprocess_run (argv : list string) : M CompletedProcess :=
  fun tr => (inr (child w (spawned tr) argv), tr ++ [Spawn argv]).

Definition float_of (tok : string) : result F :=
  match float tok with
  | Some v => inr v
  | None => inl ValueError
  end.

(** [z = [c for c in x.split(" ") if c != ""]]. *)
Definition tokens (x : string) : list string :=
  filter Py.nonempty (Py.split " " x).

(** Body of one branch of the loop: decode [stream], take line [line] of
    the split on newlines, take tokens [i] and [j].  In the source the first
    value is appended to [runtime_l] before the second token is looked at;
    both lists are local to [core], so an exception in between leaves
    nothing behind and the pair can be returned at once. *)
Definition extract (stream : string) (line i j : Z) : result (F * F) :=
  match Py.decode stream with
  | inl e => inl e
  | inr text =>
      match Py.index (Py.split "010" text) line with
      | inl e => inl e
      | inr x =>
          let z := tokens x in
          match Py.index z i with
          | inl e => inl e
          | inr a =>
              match float_of a with
              | inl e => inl e
              | inr runtime =>
                  match Py.index z j with
                  | inl e => inl e
                  | inr b =>
                      match float_of b with
                      | inl e => inl e
                      | inr mflops => inr (runtime, mflops)
                      end
                  end
              end
          end
      end
  end.

(** Lines 64 to 90 of [core]: the sample of one measured run. *)
Definition parse_output (variant : string) (out : CompletedProcess)
  : result (F * F) :=
  if str_in variant cuda_variants then extract (stdout out) 2 (-4) (-3)
  else if str_in variant scc_variants then extract (stderr out) 3 (-5) (-4)
  else extract (stderr out) (-2) (-5) (-4).


Definition executable (config : FortranConfig) : string :=
  Py.path_join (module_dir w)
    [build_dir config; ("bin/dwarf-cloudsc-" ++ variant config)%string].

Definition argv_of (config : FortranConfig) : list string :=
  [executable config;
   Py.str (num_threads config);
   Py.str (num_cols config);
   Py.str (Z.min (num_cols config) (nproma config))].

(** [for _ in range(config.num_runs)]: [n] iterations still to go. *)
Fixpoint measure (config : FortranConfig) (n : nat)
    (runtime_l mflops_l : list F) : M (list F * list F) :=
  match n with
  | O => ret (runtime_l, mflops_l)
  | S n' =>
      out <- subprocess_run (argv_of config) ;;
      s <- lift (parse_output (variant config) out) ;;
      measure config n' (runtime_l ++ [fst s]) (mflops_l ++ [snd s])
  end.

(** The measuring loop, read off the world: starting with child number
    [start], [n] runs are due; the result is the number of children
    actually started and the samples, or the first exception. *)
Fixpoint collect (config : FortranConfig) (start n : nat)
  : nat * result (list (F * F)) :=
  match n with
  | O => (O, inr [])
  | S n' =>
      match parse_output (variant config) (child w start (argv_of config)) with
      | inl e => (1%nat, inl e)
      | inr s =>
          let '(k, r) := collect config (S start) n' in
          (S k, match r with inl e => inl e | inr ss => inr (s :: ss) end)
      end
  end.

Definition row_of (file : string) (config : FortranConfig) (io_config : IOConfig)
    (stats : F * F * F * F) : csv_row :=
  let '(runtime_mean, runtime_stddev, mflops_mean, mflops_stddev) := stats in
  {| csv_file := file;
     csv_host := host_name io_config;
     csv_precision := precision config;
     csv_variant := variant config;
     csv_num_cols := num_cols config;
     csv_num_threads := num_threads config;
     csv_nproma := nproma config;
     csv_num_runs := num_runs config;
     csv_runtime_mean := runtime_mean;
     csv_runtime_stddev := runtime_stddev;
     csv_mflops_mean := mflops_mean;
     csv_mflops_stddev := mflops_stddev |}.

(** What was persisted, if anything: the events after the aggregation. *)
Definition persisted (config : FortranConfig) (io_config : IOConfig)
    (stats : F * F * F * F) : trace :=
  match output_csv_file io_config with
  | Some file => [ToCsv (row_of file config io_config stats)]
  | None => []
  end.

(** [core(config, io_config) -> None]. *)
Definition core (config : FortranConfig) (io_config : IOConfig) : M unit :=
  if negb (path_exists w (executable config)) then
    raise (RuntimeError
             ("The executable `" ++ executable config ++ "` does not exist.")%string)
  else
    (* warm-up cache *)
    out <- subprocess_run (argv_of config) ;;
    (if returncode out =? 0 then ret tt
     else msg <- lift (Py.decode (stderr out)) ;; raise (RuntimeError msg)) ;;;
    (* run and profile *)
    lists <- measure config (Z.to_nat (num_runs config)) [] [] ;;
    emit (PrintPerformance (num_cols config) (fst lists) (snd lists)) ;;;
    stats <- lift (print_performance (num_cols config) (fst lists) (snd lists)) ;;
    match output_csv_file io_config with
    | Some file =>
        let row := row_of file config io_config stats in
        emit (ToCsv row) ;;; lift (to_csv row)
    | None => ret tt
    end.

End Driver.

(** ** A concrete instance for closed examples

    The general results below hold for every [float], [print_performance]
    and [to_csv].  Closed examples need particular ones. *)

Module Sample.

(** Python floats, as far as the examples need them.  [Finite q] is the
    float nearest to the rational [q] (kept in lowest terms); the rounding
    to binary64 is not represented.  [Mean] and [Stddev] stand for the
    results of the imported helper, left uninterpreted. *)
#[warnings="-register-all"]
Inductive pyfloat : Type :=
| Finite (q : Q)
| Infinity (negative : bool)
| NaN
| Mean (l : list pyfloat)
| Stddev (l : list pyfloat).

Definition is_digit (c : ascii) : bool := Py.between 48 57 c.

Definition digit_value (c : ascii) : Z := Py.byte c - 48.

(** The white space that [float] strips from an ASCII string: tab to
    carriage return, and the space. *)
Definition is_blank (c : ascii) : bool :=
  Py.between 9 13 c || Py.between 32 32 c.

Fixpoint lstrip (s : string) : string :=
  match s with
  | String c r => if is_blank c then lstrip r else s
  | EmptyString => s
  end.

Fixpoint rstrip (s : string) : string :=
  match s with
  | EmptyString => EmptyString
  | String c r =>
      match rstrip r with
      | EmptyString => if is_blank c then EmptyString else String c EmptyString
      | r' => String c r'
      end
  end.

Definition lower (c : ascii) : ascii :=
  if Py.between 65 90 c then ascii_of_N (N_of_ascii c + 32) else c.

Fixpoint lowercase (s : string) : string :=
  match s with
  | EmptyString => EmptyString
  | String c r => String (lower c) (lowercase r)
  end.

(** Continuation of a [digitpart] after its first digit: further digits,
    each optionally preceded by one underscore.  Returns the accumulated
    value, the number of digits read and the rest of the input. *)
Fixpoint more_digits (acc : Z) (cnt : Z) (s : string) : Z * Z * string :=
  match s with
  | String c r =>
      if is_digit c then more_digits (10 * acc + digit_value c) (cnt + 1) r
      else if Ascii.eqb c "_" then
        match r with
        | String d r' =>
            if is_digit d
            then more_digits (10 * acc + digit_value d) (cnt + 1) r'
            else (acc, cnt, s)
        | EmptyString => (acc, cnt, s)
        end
      else (acc, cnt, s)
  | EmptyString => (acc, cnt, s)
  end.

(** [digitpart], continuing the value [acc]. *)
Definition digitpart (acc : Z) (s : string) : option (Z * Z * string) :=
  match s with
  | String c r =>
      if is_digit c then Some (more_digits (10 * acc + digit_value c) 1 r)
      else None
  | EmptyString => None
  end.

Definition sign (s : string) : bool * string :=
  match s with
  | String c r =>
      if Ascii.eqb c "-" then (true, r)
      else if Ascii.eqb c "+" then (false, r)
      else (false, s)
  | EmptyString => (false, s)
  end.

(** [number]: [[digitpart] "." digitpart | digitpart ["."]].  Returns the
    digits read as one integer and the number of them after the point. *)
Definition number (s : string) : option (Z * Z * string) :=
  match digitpart 0 s with
  | Some (m, _, String "." r) =>
      match digitpart m r with
      | Some (m', k, r') => Some (m', k, r')
      | None => Some (m, 0, r)
      end
  | Some (m, _, r) => Some (m, 0, r)
  | None =>
      match s with
      | String "." r => option_map (fun '(m, k, r') => (m, k, r')) (digitpart 0 r)
      | _ => None
      end
  end.

(** [exponent]: [("e" | "E") [sign] digitpart], or nothing. *)
Definition exponent (s : string) : option Z :=
  match s with
  | EmptyString => Some 0
  | String c r =>
      if Ascii.eqb (lower c) "e" then
        let '(neg, r') := sign r in
        match digitpart 0 r' with
        | Some (e, _, EmptyString) => Some (if neg then - e else e)
        | _ => None
        end
      else None
  end.

Definition scale (m e : Z) : Q :=
  Qred (if 0 <=? e then Qmake (m * 10 ^ e) 1
        else Qmake m (Z.to_pos (10 ^ (- e)))).

(** [float(s)] on ASCII input, as the exact value of the literal: rounding,
    overflow and underflow are not represented.  (Python also accepts
    non-ASCII decimal digits and white space; no example uses them.) *)
Definition float (s : string) : option pyfloat :=
  let '(neg, body) := sign (rstrip (lstrip s)) in
  let low := lowercase body in
  if String.eqb low "inf" || String.eqb low "infinity" then Some (Infinity neg)
  else if String.eqb low "nan" then Some NaN
  else
    match number body with
    | Some (m, k, r) =>
        match exponent r with
        | Some e => Some (Finite (scale (if neg then - m else m) (e - k)))
        | None => None
        end
    | None => None
    end.

(** Modelled from the spec: the helper [print_performance] of
    [ifs_physics_common.utils.output] is not part of the sources; it
    returns mean and standard deviation of the runtimes, then of the
    throughputs.  The arithmetic is left uninterpreted. *)
Definition print_performance (cols : Z) (runtime_l mflops_l : list pyfloat)
  : result (pyfloat * pyfloat * pyfloat * pyfloat) :=
  inr (Mean runtime_l, Stddev runtime_l, Mean mflops_l, Stddev mflops_l).

(** Modelled from the spec: the helper [to_csv] of
    [ifs_physics_common.utils.output] is not part of the sources; it
    appends the row to the file and returns nothing. *)
Definition to_csv (row : csv_row pyfloat) : result unit := inr tt.

End Sample.

(** ** The tokenisation in the words of the specification

    The specification describes the tokens of a line as the result of a
    split "on whitespace discarding empty tokens".  For comparison with
    [tokens], which splits on the space character, this reading is written
    down here; nothing in the driver uses it. *)

Module Spec.

(** Pieces of [s] between characters satisfying [p]. *)
Fixpoint split_if (p : ascii -> bool) (s : string) : list string :=
  match s with
  | EmptyString => [EmptyString]
  | String c rest =>
      if p c then EmptyString :: split_if p rest
      else match split_if p rest with
           | [] => [String c EmptyString]
           | piece :: pieces => String c piece :: pieces
           end
  end.

Definition whitespace_tokens (x : string) : list string :=
  filter Py.nonempty (split_if Py.is_space x).

(** The sample according to a layout rule, with white-space tokens. *)
Definition sample {F : Type} (float : string -> option F)
    (stream : string) (line i j : Z) : result (F * F) :=
  match Py.decode stream with
  | inl e => inl e
  | inr text =>
      match Py.index (Py.split "010" text) line with
      | inl e => inl e
      | inr x =>
          let z := whitespace_tokens x in
          match Py.index z i, Py.index z j with
          | inr a, inr b =>
              match float a, float b with
              | Some runtime, Some mflops => inr (runtime, mflops)
              | _, _ => inl ValueError
              end
          | _, _ => inl IndexError
          end
      end
  end.

End Spec.

(** ** The builder transforms *)

(** Modelled from the spec: [with_nproma] belongs to the imported
    [FortranConfig], which is not part of the sources; it returns a new
    configuration with the block size replaced and never mutates in place. *)
Definition with_nproma (n : Z) (c : FortranConfig) : FortranConfig :=
  {| build_dir := build_dir c; precision := precision c; variant := variant c;
     nproma := n; num_cols := num_cols c; num_runs := num_runs c;
     num_threads := num_threads c |}.

(** Modelled from the spec: [with_num_cols], likewise, returns a new
    configuration with the problem size replaced. *)
Definition with_num_cols (n : Z) (c : FortranConfig) : FortranConfig :=
  {| build_dir := build_dir c; precision := precision c; variant := variant c;
     nproma := nproma c; num_cols := n; num_runs := num_runs c;
     num_threads := num_threads c |}.

(** ** Worlds and configurations for closed examples *)

Module Fixture.

Import Sample.

Definition nl : string := String "010" EmptyString.
Definition tab : string := String "009" EmptyString.

(** The defaults of the command line options. *)
Definition default_config : FortranConfig :=
  {| build_dir := "fortran"; precision := "double"; variant := "fortran";
     nproma := 32; num_cols := 1; num_runs := 1; num_threads := 1 |}.

Definition three_runs (v : string) : FortranConfig :=
  {| build_dir := "fortran"; precision := "double"; variant := v;
     nproma := 128; num_cols := 64; num_runs := 3; num_threads := 1 |}.

Definition no_csv : IOConfig :=
  {| output_csv_file := None; host_name := None |}.

Definition with_csv : IOConfig :=
  {| output_csv_file := Some "performance.csv"; host_name := Some "lumi" |}.

(** A child that exits with [code] and prints the same banner on both
    streams. *)
Definition prints (code : Z) (banner : string) : CompletedProcess :=
  {| returncode := code; stdout := banner; stderr := banner |}.

(** A banner with a timing line that suits the default class. *)
Definition cpu_banner : string := ("x 5.0 100.0 a b c" ++ nl)%string.

(** Every path exists, every child succeeds and prints [cpu_banner]. *)
Definition healthy : World :=
  {| module_dir := "/opt/drivers";
     path_exists := fun _ => true;
     child := fun _ _ => prints 0 cpu_banner |}.

(** No path exists. *)
Definition not_built : World :=
  {| module_dir := "/opt/drivers";
     path_exists := fun _ => false;
     child := fun _ _ => prints 0 cpu_banner |}.

(** The warm-up succeeds; every later child prints the banner and exits
    with status 1. *)
Definition failing_after_warm_up : World :=
  {| module_dir := "/opt/drivers";
     path_exists := fun _ => true;
     child := fun k _ => prints (match k with O => 0 | S _ => 1 end) cpu_banner |}.

(** The warm-up exits with status 2 and a diagnostic. *)
Definition failing_warm_up : World :=
  {| module_dir := "/opt/drivers";
     path_exists := fun _ => true;
     child := fun k _ =>
       match k with
       | O => {| returncode := 2; stdout := ""; stderr := "segfault" |}
       | S _ => prints 0 cpu_banner
       end |}.

(** The executable exists, but the warm-up exits with status 1 and
    complains on its error stream that it does not. *)
Definition misleading_warm_up : World :=
  {| module_dir := "/opt/drivers";
     path_exists := fun _ => true;
     child := fun _ _ =>
       {| returncode := 1;
          stdout := "";
          stderr := "The executable `/opt/drivers/fortran/bin/dwarf-cloudsc-fortran` does not exist." |} |}.

Definition run : World -> FortranConfig -> IOConfig
                 -> M pyfloat unit :=
  core pyfloat Sample.float Sample.print_performance Sample.to_csv.

End Fixture.

(** ** The stencil function [f_fokoop]

    The function is written once for every element type of the fields it is
    applied to; the type and its arithmetic are parameters, and so are the
    two externals and the two functions imported from [fcttre], which are not
    part of these sources.  The [min] of a stencil is not Python's: it is
    the minimum of the backend that compiles the stencil, a parameter as
    well. *)

Module Fccld.

Section Fokoop.

Variable scalar : Type.
Variables sub mul div : scalar -> scalar -> scalar.

(** [min], as the backend compiles it. *)
Variable minimum : scalar -> scalar -> scalar.

(** [from __externals__ import RKOOP1, RKOOP2]. *)
Variables RKOOP1 RKOOP2 : scalar.

Variables f_foeeliq f_foeeice : scalar -> scalar.

Definition f_fokoop (t : scalar) : scalar :=
  minimum (sub RKOOP1 (mul RKOOP2 t)) (div (f_foeeliq t) (f_foeeice t)).

End Fokoop.

(** The minima of two IEEE 754 floats that backends compile [min] to.  They
    agree on numbers and differ on NaN: [numpy.minimum] returns a NaN
    argument (the first of two), the comparison [b < a ? b : a] of
    [std::min] returns its first argument whenever the comparison fails, and
    [fmin] returns the argument that is a number. *)
Definition is_nan (x : spec_float) : bool :=
  match x with S754_nan => true | _ => false end.

Inductive minimum_kind : Type := Propagating | Comparing | Ignoring.

Definition minimum (k : minimum_kind) (a b : spec_float) : spec_float :=
  match k with
  | Propagating => if is_nan a || SFltb a b then a else b
  | Comparing => if SFltb b a then b else a
  | Ignoring =>
      if is_nan a then b
      else if is_nan b then a
      else if SFltb a b then a else b
  end.

(** IEEE 754 double precision, for closed examples. *)
Definition binary64 (m e : Z) : spec_float := binary_normalize 53 1024 m e false.

Definition koop_double (k : minimum_kind) (liq ice : spec_float -> spec_float)
    (t : spec_float) : spec_float :=
  f_fokoop spec_float (SFsub 53 1024) (SFmul 53 1024) (SFdiv 53 1024)
    (minimum k) (binary64 2583 0) (binary64 5 0) liq ice t.

End Fccld.

(** The world whose children are numbered from [k] on: what a later
    invocation in the same process finds. *)
Definition shift (k : nat) (w : World) : World :=
  {| module_dir := module_dir w;
     path_exists := path_exists w;
     child := fun i argv => child w (k + i) argv |}.

(** ** The entry point [_main] *)

(** Modelled from the spec: the remaining transforms of the imported
    [FortranConfig] and [IOConfig], each returning a new value with one
    field replaced. *)
Definition with_build_dir (d : string) (c : FortranConfig) : FortranConfig :=
  {| build_dir := d; precision := precision c; variant := variant c;
     nproma := nproma c; num_cols := num_cols c; num_runs := num_runs c;
     num_threads := num_threads c |}.

Definition with_precision (p : string) (c : FortranConfig) : FortranConfig :=
  {| build_dir := build_dir c; precision := p; variant := variant c;
     nproma := nproma c; num_cols := num_cols c; num_runs := num_runs c;
     num_threads := num_threads c |}.

Definition with_variant (v : string) (c : FortranConfig) : FortranConfig :=
  {| build_dir := build_dir c; precision := precision c; variant := v;
     nproma := nproma c; num_cols := num_cols c; num_runs := num_runs c;
     num_threads := num_threads c |}.

Definition with_num_runs (n : Z) (c : FortranConfig) : FortranConfig :=
  {| build_dir := build_dir c; precision := precision c; variant := variant c;
     nproma := nproma c; num_cols := num_cols c; num_runs := n;
     num_threads := num_threads c |}.

Definition with_num_threads (n : Z) (c : FortranConfig) : FortranConfig :=
  {| build_dir := build_dir c; precision := precision c; variant := variant c;
     nproma := nproma c; num_cols := num_cols c; num_runs := num_runs c;
     num_threads := n |}.

Definition with_output_csv_file (f : option string) (c : IOConfig) : IOConfig :=
  {| output_csv_file := f; host_name := host_name c |}.

Definition with_host_name (h : option string) (c : IOConfig) : IOConfig :=
  {| output_csv_file := output_csv_file c; host_name := h |}.

Section EntryPoint.

Variable F : Type.
Variable float : string -> option F.
Variable print_performance : Z -> list F -> list F -> result (F * F * F * F).
Variable to_csv : csv_row F -> result unit.

(** [default_fortran_config] and [default_io_config] of the module
    [config], which is not part of the sources. *)
Variable default_fortran_config : FortranConfig.
Variable default_io_config : IOConfig.

(** The chain of transforms at the head of [_main]. *)
Definition main_config (build_dir precision variant : string)
    (nproma num_cols num_runs num_threads : Z) : FortranConfig :=
  with_num_threads num_threads
    (with_num_runs num_runs
       (with_num_cols num_cols
          (with_nproma nproma
             (with_variant variant
                (with_precision precision
                   (with_build_dir build_dir default_fortran_config)))))).

Definition main_io_config (host_alias output_csv_file : option string)
  : IOConfig :=
  with_host_name host_alias
    (with_output_csv_file output_csv_file default_io_config).

Definition _main (w : World) (build_dir precision variant : string)
    (nproma num_cols num_runs num_threads : Z)
    (host_alias output_csv_file : option string) : M F unit :=
  core F float print_performance to_csv w
    (main_config build_dir precision variant nproma num_cols num_runs num_threads)
    (main_io_config host_alias output_csv_file).

End EntryPoint.

(** [main()] of [run_fortran.py] when the command line gives no option:
    [click] passes the declared defaults on to [_main]. *)
Definition main_without_options F float print_performance to_csv
    default_fortran_config default_io_config (w : World) : M F unit :=
  _main F float print_performance to_csv default_fortran_config
    default_io_config w "fortran" "double" "fortran" 32 1 1 1 None None.

(** ** The sweep of [run_fortran_lumi_1501.py]

    The block between [config: start] and [config: end] is a record, so
    that [main] can be studied for every setting; [Lumi1501.settings] holds
    the values of the file.  A [dict] is the list of its items in insertion
    order, with distinct keys. *)

Record Settings : Type := {
  build_dir_parent : string;
  build_type_l : list string;
  precision_l : list string;
  host_alias : string;
  sweep_num_cols : Z;
  sweep_num_runs : Z;
  output_dir_parent : string;
  variants : list (string * list (string * Z))
}.

(** [options[key]]. *)
Fixpoint getitem (options : list (string * Z)) (key : string) : result Z :=
  match options with
  | [] => inl (Raised "KeyError" key)
  | (k, v) :: rest => if String.eqb k key then inr v else getitem rest key
  end.

Section Sweep.

Variable F : Type.
Variable float : string -> option F.
Variable print_performance : Z -> list F -> list F -> result (F * F * F * F).
Variable to_csv : csv_row F -> result unit.
Variable default_fortran_config : FortranConfig.
Variable default_io_config : IOConfig.

(** [os.makedirs(path, exist_ok=True)]: what it returns or raises is a
    parameter. *)
Variable makedirs : string -> result unit.

Variable w : World.

(** What the sweep does, in program order.  [Progress] is the line printed
    before and after a call of [_main]; it is made of the three names and
    of [start] or [end].  [Invocation] is a call of [_main]: the two
    configurations it hands to [core], what [core] returned or raised, and
    the trace of that call. *)
Inductive action : Type :=
| MakeDirs (path : string)
| Progress (variant build_type precision phase : string)
| Invocation (config : FortranConfig) (io_config : IOConfig)
    (outcome : result unit) (events : trace F).

Definition journal : Type := list action.

(** Number of children started by the calls so far. *)
Fixpoint started (log : journal) : nat :=
  match log with
  | [] => O
  | Invocation _ _ _ events :: log' => (spawned F events + started log')%nat
  | _ :: log' => started log'
  end.

Definition Sw (A : Type) : Type := journal -> result A * journal.

Definition sw_ret {A} (x : A) : Sw A := fun log => (inr x, log).

Definition sw_bind {A B} (m : Sw A) (k : A -> Sw B) : Sw B :=
  fun log =>
    match m log with
    | (inl e, log') => (inl e, log')
    | (inr x, log') => k x log'
    end.

Definition sw_lift {A} (r : result A) : Sw A := fun log => (r, log).

Definition call_makedirs (path : string) : Sw unit :=
  fun log => (makedirs path, log ++ [MakeDirs path]).

Definition print_progress (variant build_type precision phase : string)
  : Sw unit :=
  fun log => (inr tt, log ++ [Progress variant build_type precision phase]).

(** A call of [_main]; the children it starts are numbered after those of
    the earlier calls. *)
Definition call_main (build_dir precision variant : string)
    (nproma num_cols num_runs num_threads : Z)
    (host_alias output_csv_file : option string) : Sw unit :=
  fun log =>
    let out :=
      _main F float print_performance to_csv
        default_fortran_config default_io_config (shift (started log) w)
        build_dir precision variant nproma num_cols num_runs num_threads
        host_alias output_csv_file [] in
    (fst out,
     log ++ [Invocation
               (main_config default_fortran_config build_dir precision variant
                  nproma num_cols num_runs num_threads)
               (main_io_config default_io_config host_alias output_csv_file)
               (fst out) (snd out)]).

(** [for x in l: body(x)]. *)
Fixpoint for_each {A} (l : list A) (body : A -> Sw unit) : Sw unit :=
  match l with
  | [] => sw_ret tt
  | x :: l' => sw_bind (body x) (fun _ => for_each l' body)
  end.

Variable st : Settings.

(** The body of the innermost loop. *)
Definition run_variant (build_type precision build_dir output_csv_file : string)
    (item : string * list (string * Z)) : Sw unit :=
  let '(variant, options) := item in
  sw_bind (print_progress variant build_type precision "start") (fun _ =>
  sw_bind (sw_lift (getitem options "nproma")) (fun nproma =>
  sw_bind (sw_lift (getitem options "num_threads")) (fun num_threads =>
  sw_bind (call_main build_dir precision variant nproma
             (sweep_num_cols st) (sweep_num_runs st) num_threads
             (Some (host_alias st)) (Some output_csv_file)) (fun _ =>
  print_progress variant build_type precision "end")))).

(** [main()] of the sweep. *)
Definition sweep : Sw unit :=
  for_each (build_type_l st) (fun build_type =>
    for_each (precision_l st) (fun precision =>
      let build_dir :=
        Py.path_join (build_dir_parent st) [build_type; precision] in
      let output_dir := Py.path_join (output_dir_parent st) [build_type] in
      sw_bind (call_makedirs output_dir) (fun _ =>
      let output_csv_file := Py.path_join output_dir ["performance.csv"] in
      for_each (variants st)
        (run_variant build_type precision build_dir output_csv_file)))).

End Sweep.

Module Lumi1501.



End Lumi1501.

(** ** More worlds for closed examples *)

Module Scenario.

(** Every path exists; the first [k] children succeed and print the banner
    of the default class, the later ones exit with status 1 and complain. *)
Definition healthy_until (k : nat) : World :=
  {| module_dir := "/opt/drivers";
     path_exists := fun _ => true;
     child := fun i _ =>
       if (i <? k)%nat then Fixture.prints 0 Fixture.cpu_banner
       else {| returncode := 1; stdout := ""; stderr := "out of memory" |} |}.

(** Every child succeeds; the first [k] print the banner, the later ones
    something else. *)
Definition garbled_from (k : nat) : World :=
  {| module_dir := "/opt/drivers";
     path_exists := fun _ => true;
     child := fun i _ =>
       Fixture.prints 0
         (if (i <? k)%nat then Fixture.cpu_banner else "Segmentation fault") |}.

(** As [Fixture.healthy], but the children after the first exit with
    status 3 and print other things on their standard output. *)
Definition noisy : World :=
  {| module_dir := "/opt/drivers";
     path_exists := fun _ => true;
     child := fun i _ =>
       match i with
       | O => Fixture.prints 0 Fixture.cpu_banner
       | S _ => {| returncode := 3; stdout := "progress: 100%";
                   stderr := Fixture.cpu_banner |}
       end |}.

(** The warm-up exits with status -11 and an error stream that is not
    UTF-8. *)
Definition killed_warm_up : World :=
  {| module_dir := "/opt/drivers";
     path_exists := fun _ => true;
     child := fun _ _ =>
       {| returncode := -11; stdout := ""; stderr := String "255" "core dumped" |} |}.

Definition no_runs : FortranConfig :=
  {| build_dir := "fortran"; precision := "double"; variant := "fortran";
     nproma := 32; num_cols := 8; num_runs := 0; num_threads := 1 |}.

(** A [to_csv] that cannot write. *)
Definition read_only (row : csv_row Sample.pyfloat) : result unit :=
  inl (Raised "PermissionError" (csv_file _ row)).

(** A sweep of two build types, one precision and two variants, the second
    of which lacks an option. *)
Definition small : Settings :=
  {| build_dir_parent := "/build";
     build_type_l := ["release"; "debug"];
     precision_l := ["double"];
     host_alias := "laptop";
     sweep_num_cols := 16;
     sweep_num_runs := 2;
     output_dir_parent := "/data";
     variants := [("fortran", [("num_threads", 4); ("nproma", 8)]);
                  ("gpu-scc", [("num_threads", 1)])] |}.

Definition makedirs_ok (path : string) : result unit := inr tt.


Definition small_sweep : World -> Sw Sample.pyfloat unit :=
  fun w =>
    sweep Sample.pyfloat Sample.float Sample.print_performance Sample.to_csv
      Fixture.default_config Fixture.no_csv makedirs_ok w small.

End Scenario.

(** * Properties *)

(** ** The built-ins *)

Example split_ex1 :
  Py.split "010" ("a" ++ String "010" "b" ++ String "010" "")%string = ["a"; "b"; ""].
Proof. reflexivity. Qed.

Example str_ex : (Py.str 0, Py.str 42, Py.str (-7)) = ("0", "42", "-7").
Proof. reflexivity. Qed.

Example index_ex :
  (Py.index [1; 2; 3] (-1), Py.index [1; 2; 3] (-3), Py.index [1; 2; 3] (-4),
   Py.index [1; 2; 3] 2, Py.index [1; 2; 3] 3)
  = (inr 3, inr 1, inl IndexError, inr 3, inl IndexError).
Proof. reflexivity. Qed.

Example utf8_valid_ex :
  map Py.utf8_valid
    ["plain"; String "195" (String "169" "");          (* U+00E9 *)
     String "192" (String "128" "");                   (* overlong *)
     String "237" (String "160" (String "128" ""));    (* surrogate *)
     String "128" ""; String "226" (String "130" "")]  (* stray, truncated *)
  = [true; true; false; false; false; false].
Proof. reflexivity. Qed.

Example path_join_ex :
  (Py.path_join "/d" ["fortran"; "bin/x"], Py.path_join "/d" ["/abs"; "bin/x"],
   Py.path_join "" ["b"; "c"], Py.path_join "/d/" [""; "c"])
  = ("/d/fortran/bin/x", "/abs/bin/x", "b/c", "/d/c").
Proof. reflexivity. Qed.

Example float_ex :
  map Sample.float
    ["5.0"; "100.0"; "-1.5e2"; "1_0.2_5"; ".5"; "5."; "1e-2"; "x"; "";
     "."; "1__0"; "_1"; "1_"; "e5"; "1e"; "Inf"; "-infinity"; "nan"; " 7 "; "1 2"]
  = [Some (Sample.Finite (Qmake 5 1)); Some (Sample.Finite (Qmake 100 1));
     Some (Sample.Finite (Qmake (-150) 1)); Some (Sample.Finite (Qmake 41 4));
     Some (Sample.Finite (Qmake 1 2)); Some (Sample.Finite (Qmake 5 1));
     Some (Sample.Finite (Qmake 1 100)); None; None;
     None; None; None; None; None; None; Some (Sample.Infinity false);
     Some (Sample.Infinity true); Some Sample.NaN;
     Some (Sample.Finite (Qmake 7 1)); None].
Proof. reflexivity. Qed.

Lemma split_nonempty sep s : Py.split sep s <> [].
Proof.
  destruct s as [|c r]; simpl; [discriminate|].
  destruct (Ascii.eqb c sep); [discriminate|].
  destruct (Py.split sep r); discriminate.
Qed.

(** Joining the pieces with the separator gives the string back. *)
Lemma join_split sep s : Py.join sep (Py.split sep s) = s.
Proof.
  induction s as [|c r IH]; [reflexivity|].
  simpl. destruct (Ascii.eqb_spec c sep) as [->|Hc].
  - change (Py.join sep (EmptyString :: Py.split sep r))
      with (match Py.split sep r with
            | [] => EmptyString
            | _ :: _ => String sep (Py.join sep (Py.split sep r))
            end).
    pose proof (split_nonempty sep r) as Hne.
    destruct (Py.split sep r); [contradiction|]. now rewrite IH.
  - pose proof (split_nonempty sep r) as Hne.
    destruct (Py.split sep r) as [|p ps]; [contradiction|].
    destruct ps as [|q qs]; simpl in *; now rewrite IH.
Qed.

(** No piece contains the separator. *)
Lemma split_sep_free sep s :
  Forall (fun p => Py.mem sep p = false) (Py.split sep s).
Proof.
  induction s as [|c r IH]; simpl.
  - constructor; [reflexivity | constructor].
  - destruct (Ascii.eqb_spec c sep) as [->|Hc].
    + constructor; [reflexivity | exact IH].
    + destruct (Py.split sep r) as [|p ps]; [constructor; [|constructor]|].
      * simpl. destruct (Ascii.eqb_spec c sep); [contradiction | reflexivity].
      * inversion IH; subst. constructor; [|assumption].
        simpl. destruct (Ascii.eqb_spec c sep); [contradiction | assumption].
Qed.

(** A string without the separator is its own single piece. *)
Lemma split_sep_free_id sep p : Py.mem sep p = false -> Py.split sep p = [p].
Proof.
  induction p as [|c r IH]; [reflexivity|]. simpl.
  destruct (Ascii.eqb c sep); [discriminate|]. simpl.
  intros H. now rewrite (IH H).
Qed.

Lemma split_app sep p s :
  Py.mem sep p = false ->
  Py.split sep (p ++ String sep s) = p :: Py.split sep s.
Proof.
  induction p as [|c r IH]; simpl.
  - intros _. now rewrite Ascii.eqb_refl.
  - destruct (Ascii.eqb c sep); [discriminate|]. simpl.
    intros H. now rewrite (IH H).
Qed.

(** Splitting undoes joining: pieces that are free of the separator come
    back as they were. *)
Lemma split_join sep pieces :
  pieces <> [] ->
  Forall (fun p => Py.mem sep p = false) pieces ->
  Py.split sep (Py.join sep pieces) = pieces.
Proof.
  induction pieces as [|p ps IH]; [congruence|]. intros _ Hall.
  inversion Hall as [|? ? Hp Hps]; subst.
  destruct ps as [|q qs].
  - simpl. now apply split_sep_free_id.
  - change (Py.join sep (p :: q :: qs))
      with (p ++ String sep (Py.join sep (q :: qs)))%string.
    rewrite split_app by assumption. f_equal. apply IH; [discriminate | assumption].
Qed.

(** Every token is non-empty and free of spaces. *)
Lemma tokens_shape x :
  Forall (fun t => t <> EmptyString /\ Py.mem " " t = false) (tokens x).
Proof.
  unfold tokens. apply Forall_forall. intros t Ht.
  apply filter_In in Ht. destruct Ht as [Hin Hne]. split.
  - intros ->. discriminate.
  - pose proof (split_sep_free " " x) as H.
    rewrite Forall_forall in H. now apply H.
Qed.

(** Words separated by single spaces are the tokens of their line. *)
Lemma tokens_join ws :
  ws <> [] ->
  Forall (fun t => t <> EmptyString /\ Py.mem " " t = false) ws ->
  tokens (Py.join " " ws) = ws.
Proof.
  intros Hne Hall. unfold tokens. rewrite split_join; [|assumption|].
  - induction Hall as [|t ts [Ht _] _ IH]; [reflexivity|]. simpl.
    destruct t; [congruence|]. simpl. f_equal.
    destruct ts; [reflexivity | apply IH; discriminate].
  - eapply Forall_impl; [|exact Hall]. intros t [_ H]. exact H.
Qed.

(** A negative index counts from the end. *)
Lemma index_from_end {A} (pre suf : list A) (x : A) :
  Py.index (pre ++ x :: suf) (- Z.of_nat (S (length suf))) = inr x.
Proof.
  unfold Py.index. rewrite length_app. cbn [length].
  destruct (Z.ltb_spec (- Z.of_nat (S (length suf))) 0); [|lia].
  replace (- Z.of_nat (S (length suf)) + Z.of_nat (length pre + S (length suf)))
    with (Z.of_nat (length pre)) by lia.
  destruct (Z.leb_spec 0 (Z.of_nat (length pre))); [|lia].
  destruct (Z.ltb_spec (Z.of_nat (length pre))
              (Z.of_nat (length pre + S (length suf)))); [|lia].
  cbn [andb]. rewrite Nat2Z.id, nth_error_app2 by lia.
  now rewrite Nat.sub_diag.
Qed.

Lemma index_nonneg {A} (l : list A) (i : nat) (x : A) :
  nth_error l i = Some x -> Py.index l (Z.of_nat i) = inr x.
Proof.
  intros H. unfold Py.index.
  assert (i < length l)%nat by (apply nth_error_Some; congruence).
  destruct (Z.ltb_spec (Z.of_nat i) 0); [lia|].
  destruct (Z.leb_spec 0 (Z.of_nat i)); [|lia].
  destruct (Z.ltb_spec (Z.of_nat i) (Z.of_nat (length l))); [|lia].
  cbn [andb]. now rewrite Nat2Z.id, H.
Qed.



Arguments Spawn {F} argv.
Arguments PrintPerformance {F} cols runtime_l mflops_l.
Arguments ToCsv {F} row.
Arguments spawned {F} tr.

(** ** The driver *)

Section DriverFacts.

Variable F : Type.
Variable float : string -> option F.
Variable print_performance : Z -> list F -> list F -> result (F * F * F * F).
Variable to_csv : csv_row F -> result unit.

Local Abbreviation parse := (parse_output F float).
Local Abbreviation run := (core F float print_performance to_csv).


Lemma spawned_app (tr1 tr2 : trace F) :
  spawned (tr1 ++ tr2) = (spawned tr1 + spawned tr2)%nat.
Proof.
  induction tr1 as [|e tr1 IH]; [reflexivity|].
  destruct e; simpl; rewrite IH; reflexivity.
Qed.

Lemma spawned_repeat (a : list string) k :
  spawned (repeat (@Spawn F a) k) = k.
Proof. induction k; simpl; congruence. Qed.

Lemma measure_collect w config n : forall runtime_l mflops_l tr,
  measure F float w config n runtime_l mflops_l tr =
  (match snd (collect F float w config (spawned tr) n) with
   | inl e => inl e
   | inr ss => inr (runtime_l ++ map fst ss, mflops_l ++ map snd ss)
   end,
   tr ++ repeat (Spawn (argv_of w config))
           (fst (collect F float w config (spawned tr) n))).
Proof.
  induction n as [|n IH]; intros rl ml tr.
  - simpl. unfold ret. now rewrite !app_nil_r.
  - cbn [measure collect]. unfold bind at 1. unfold subprocess_run at 1.
    unfold bind at 1. unfold lift at 1.
    destruct (parse (variant config) (child w (spawned tr) (argv_of w config)))
      as [e|s] eqn:Hp.
    + reflexivity.
    + rewrite IH. rewrite spawned_app. cbn [spawned].
      replace (spawned tr + 1)%nat with (S (spawned tr)) by lia.
      destruct (collect F float w config (S (spawned tr)) n) as [k [e|ss]];
        cbn [fst snd map repeat]; rewrite <- !app_assoc; reflexivity.
Qed.

Lemma collect_le w config n : forall start,
  (fst (collect F float w config start n) <= n)%nat.
Proof.
  induction n as [|n IH]; intros start; simpl; [lia|].
  destruct (parse _ _); simpl; [lia|].
  specialize (IH (S start)).
  destruct (collect F float w config (S start) n); simpl in *. lia.
Qed.

(** All runs succeed exactly when every child's output parses; the
    samples then are these parses, in order. *)
Lemma collect_ok w config n : forall start ss,
  snd (collect F float w config start n) = inr ss <->
  (length ss = n /\
   forall i s, nth_error ss i = Some s ->
     parse (variant config) (child w (start + i) (argv_of w config)) = inr s).
Proof.
  induction n as [|n IH]; intros start ss; simpl.
  - split.
    + intros H. injection H as <-. split; [reflexivity|].
      intros [|i] s; discriminate.
    + intros [Hl _]. destruct ss; [reflexivity | discriminate].
  - destruct (parse (variant config) (child w start (argv_of w config)))
      as [e|s0] eqn:Hp.
    + split; [discriminate|]. intros [Hl Hall].
      destruct ss as [|s ss]; [discriminate|].
      specialize (Hall O s eq_refl). rewrite Nat.add_0_r in Hall. congruence.
    + specialize (IH (S start)).
      destruct (collect F float w config (S start) n) as [k [e|ss']]; cbn [snd] in *.
      * split; [discriminate|]. intros [Hl Hall].
        destruct ss as [|s ss]; [discriminate|].
        assert (inl e = inr ss) as Habs; [|discriminate].
        apply IH. split; [simpl in Hl; lia|].
        intros i s' Hi. specialize (Hall (S i) s' Hi).
        now rewrite Nat.add_succ_r in Hall.
      * split.
        -- intros H. injection H as <-.
           destruct (proj1 (IH ss') eq_refl) as [Hl Hall].
           split; [simpl; lia|].
           intros [|i] s Hi; simpl in Hi.
           ++ rewrite Nat.add_0_r. congruence.
           ++ rewrite Nat.add_succ_r. now apply Hall.
        -- intros [Hl Hall]. destruct ss as [|s ss]; [discriminate|].
           pose proof (Hall O s eq_refl) as H0.
           rewrite Nat.add_0_r in H0.
           assert (s = s0) as -> by congruence.
           f_equal. f_equal.
           assert (inr ss' = inr ss :> result _) as Heq; [|congruence].
           apply IH. split; [simpl in Hl; lia|].
           intros i s' Hi. specialize (Hall (S i) s' Hi).
           now rewrite Nat.add_succ_r in Hall.
Qed.

Lemma collect_ok_count w config n start ss :
  snd (collect F float w config start n) = inr ss ->
  fst (collect F float w config start n) = n.
Proof.
  revert start ss. induction n as [|n IH]; intros start ss; simpl; [reflexivity|].
  destruct (parse _ _); [discriminate|].
  specialize (IH (S start)).
  destruct (collect F float w config (S start) n) as [k [e|ss']]; cbn [fst snd] in *;
    [discriminate|].
  intros _. f_equal. now apply (IH ss').
Qed.

(** One invocation from the empty trace, case by case. *)
Lemma core_cases w config io_config :
  let a := argv_of w config in
  let n := Z.to_nat (num_runs config) in
  run w config io_config [] =
  if negb (path_exists w (executable w config)) then
    (inl (RuntimeError ("The executable `" ++ executable w config
                          ++ "` does not exist.")%string), [])
  else if returncode (child w 0 a) =? 0 then
    match snd (collect F float w config 1 n) with
    | inl e => (inl e, repeat (Spawn a) (1 + fst (collect F float w config 1 n)))
    | inr ss =>
        let tr := repeat (Spawn a) (1 + n)
                    ++ [PrintPerformance (num_cols config)
                          (map fst ss) (map snd ss)] in
        match print_performance (num_cols config) (map fst ss) (map snd ss) with
        | inl e => (inl e, tr)
        | inr stats =>
            match output_csv_file io_config with
            | Some file =>
                (to_csv (row_of F file config io_config stats),
                 tr ++ [ToCsv (row_of F file config io_config stats)])
            | None => (inr tt, tr)
            end
        end
    end
  else
    (match Py.decode (stderr (child w 0 a)) with
     | inl e => inl e
     | inr msg => inl (RuntimeError msg)
     end, [Spawn a]).
Proof.
  intros a n. unfold core.
  destruct (negb (path_exists w (executable w config))); [reflexivity|].
  unfold bind at 1. unfold subprocess_run at 1. cbn [spawned app].
  fold a. fold n.
  destruct (returncode (child w 0 a) =? 0).
  - unfold bind at 1. unfold ret at 1.
    unfold bind at 1. rewrite measure_collect. cbn [spawned].
    fold a. fold n.
    pose proof (collect_ok_count w config n 1) as Hcnt.
    destruct (collect F float w config 1 n) as [k [e|ss]]; cbn [fst snd] in *.
    + reflexivity.
    + rewrite (Hcnt ss eq_refl). cbn [app fst snd].
      unfold bind at 1. unfold emit at 1. unfold bind at 1. unfold lift at 1.
      change (Spawn a :: repeat (Spawn a) n) with (repeat (@Spawn F a) (1 + n)).
      destruct (print_performance _ _ _) as [e|stats]; [reflexivity|].
      destruct (output_csv_file io_config) as [file|]; [|reflexivity].
      unfold bind, emit, lift. reflexivity.
  - unfold bind at 1. unfold bind at 1. unfold lift at 1.
    destruct (Py.decode _); reflexivity.
Qed.

End DriverFacts.

Section DriverResults.

Variable F : Type.
Variable float : string -> option F.
Variable print_performance : Z -> list F -> list F -> result (F * F * F * F).
Variable to_csv : csv_row F -> result unit.

Local Abbreviation parse := (parse_output F float).
Local Abbreviation run := (core F float print_performance to_csv).

(** Every trace of [core] is a number of identical spawns, at most one more
    than the number of runs, followed (only after all of them) by the
    aggregation and then possibly the row. *)
Lemma core_trace_shape w config io_config r tr :
  run w config io_config [] = (r, tr) ->
  let a := argv_of w config in
  let n := Z.to_nat (num_runs config) in
  exists k tail,
    tr = repeat (Spawn a) k ++ tail /\ (k <= 1 + n)%nat /\
    (tail = [] \/
     (k = 1 + n)%nat /\
     exists ss,
       length ss = n /\
       snd (collect F float w config 1 n) = inr ss /\
       let pp := PrintPerformance (num_cols config) (map fst ss) (map snd ss) in
       (tail = [pp] \/
        exists stats,
          print_performance (num_cols config) (map fst ss) (map snd ss)
            = inr stats /\
          tail = pp :: persisted F config io_config stats)).
Proof.
  intros Hrun a n. rewrite core_cases in Hrun. fold a n in Hrun.
  destruct (negb (path_exists w (executable w config))).
  { injection Hrun as <- <-. exists O, []. repeat split; [lia | now left]. }
  destruct (returncode (child w 0 a) =? 0).
  2:{ injection Hrun as <- <-. exists 1%nat, []. repeat split; [lia | now left]. }
  pose proof (collect_le F float w config n 1) as Hle.
  destruct (snd (collect F float w config 1 n)) as [e|ss] eqn:Hc.
  { injection Hrun as <- <-.
    exists (1 + fst (collect F float w config 1 n))%nat, [].
    rewrite app_nil_r. repeat split; [lia | now left]. }
  assert (Hlen : length ss = n) by (apply collect_ok in Hc; tauto).
  cbv zeta in Hrun.
  destruct (print_performance _ _ _) as [e|stats] eqn:Hpp.
  { injection Hrun as <- <-.
    exists (1 + n)%nat,
      [PrintPerformance (num_cols config) (map fst ss) (map snd ss)].
    repeat split; [lia|]. right. split; [reflexivity|].
    exists ss. repeat split; auto. }
  exists (1 + n)%nat,
    (PrintPerformance (num_cols config) (map fst ss) (map snd ss)
       :: persisted F config io_config stats).
  unfold persisted.
  destruct (output_csv_file io_config) as [file|] eqn:Hio.
  - injection Hrun as <- <-. rewrite <- app_assoc.
    repeat split; [lia|]. right. split; [reflexivity|].
    exists ss. repeat split; auto. right. exists stats. auto.
  - injection Hrun as <- <-.
    repeat split; [lia|]. right. split; [reflexivity|].
    exists ss. repeat split; auto.
Qed.

(** Every spawn of an invocation carries the same argument vector. *)
Lemma core_spawns w config io_config r tr argv :
  run w config io_config [] = (r, tr) ->
  In (Spawn argv) tr -> argv = argv_of w config.
Proof.
  intros Hrun Hin.
  destruct (core_trace_shape _ _ _ _ _ Hrun) as (k & tail & -> & _ & Htail).
  apply in_app_or in Hin. destruct Hin as [Hin|Hin].
  - apply repeat_spec in Hin. congruence.
  - destruct Htail as [->|(_ & ss & _ & _ & [->|(stats & _ & ->)])].
    + destruct Hin.
    + destruct Hin as [Hin|[]]. discriminate.
    + destruct Hin as [Hin|Hin]; [discriminate|].
      unfold persisted in Hin.
      destruct (output_csv_file io_config); [|destruct Hin].
      destruct Hin as [Hin|[]]. discriminate.
Qed.

(** C6.  When the executable is missing at the resolved path, [core] raises
    at once and the trace is left as it was: no child, warm-up or measured,
    is started.  The driver reports this configuration error as a
    [RuntimeError] whose message names the path. *)
Theorem core_missing_executable w config io_config tr :
  path_exists w (executable w config) = false ->
  run w config io_config tr =
    (inl (RuntimeError ("The executable `" ++ executable w config
                          ++ "` does not exist.")%string), tr)
  /\ spawned (snd (run w config io_config [])) = O.
Proof.
  intros H. unfold core. rewrite H. split; reflexivity.
Qed.

(** C2.  Every child started by [core], the warm-up as well as each
    measured run, receives the executable followed by exactly three
    arguments: the thread count, the number of columns and the smaller of
    the number of columns and the block size, so that the block size handed
    over never exceeds the problem size.  The two builder transforms commute,
    so the arguments do not depend on the order in which they were applied. *)
Theorem core_argv w config io_config r tr argv :
  run w config io_config [] = (r, tr) ->
  In (Spawn argv) tr ->
  argv = [executable w config;
          Py.str (num_threads config);
          Py.str (num_cols config);
          Py.str (Z.min (num_cols config) (nproma config))]
  /\ Z.min (num_cols config) (nproma config) <= num_cols config
  /\ (forall base c b,
        argv_of w (with_num_cols c (with_nproma b base))
          = argv_of w (with_nproma b (with_num_cols c base))
        /\ nth_error (argv_of w (with_num_cols c (with_nproma b base))) 3
           = Some (Py.str (Z.min c b))).
Proof.
  intros Hrun Hin. split; [|split].
  - exact (core_spawns _ _ _ _ _ _ Hrun Hin).
  - lia.
  - intros base c b. split; reflexivity.
Qed.

(** C9.  A row handed to [to_csv] carries the configured [nproma], not the
    clamped block size; hence whenever [nproma > num_cols], every child of
    the invocation was given [num_cols] as its block size while the row
    reports the larger [nproma]. *)
Theorem core_row_nproma w config io_config r tr row :
  run w config io_config [] = (r, tr) ->
  In (ToCsv row) tr ->
  csv_nproma F row = nproma config
  /\ (num_cols config < nproma config ->
      num_cols config < csv_nproma F row
      /\ forall argv, In (Spawn argv) tr ->
           nth_error argv 3 = Some (Py.str (num_cols config))).
Proof.
  intros Hrun Hin.
  assert (Hrow : csv_nproma F row = nproma config).
  { destruct (core_trace_shape _ _ _ _ _ Hrun) as (k & tail & -> & _ & Htail).
    apply in_app_or in Hin. destruct Hin as [Hin|Hin].
    - apply repeat_spec in Hin. discriminate.
    - destruct Htail as [->|(_ & ss & _ & _ & [->|(stats & _ & ->)])].
      + destruct Hin.
      + destruct Hin as [Hin|[]]. discriminate.
      + destruct Hin as [Hin|Hin]; [discriminate|].
        unfold persisted in Hin.
        destruct (output_csv_file io_config); [|destruct Hin].
        destruct Hin as [Hin|[]]. injection Hin as <-.
        destruct stats as [[[? ?] ?] ?]. reflexivity. }
  split; [exact Hrow|]. intros Hlt. split; [lia|].
  intros argv Hargv. rewrite (core_spawns _ _ _ _ _ _ Hrun Hargv).
  unfold argv_of. cbn [nth_error]. now rewrite Z.min_l by lia.
Qed.

End DriverResults.

(** ** Closed instances *)

Lemma core_missing_executable_witness :
  path_exists Fixture.not_built
    (executable Fixture.not_built Fixture.default_config) = false
  /\ Fixture.run Fixture.not_built Fixture.default_config Fixture.with_csv []
     = (inl (RuntimeError
               "The executable `/opt/drivers/fortran/bin/dwarf-cloudsc-fortran` does not exist."),
        []).
Proof.
  split; [reflexivity|].
  exact (proj1 (core_missing_executable _ Sample.float Sample.print_performance
                  Sample.to_csv Fixture.not_built Fixture.default_config
                  Fixture.with_csv [] eq_refl)).
Defined.

(** The driver has one exception class for its own failures: a failing
    warm-up whose error stream carries the same text raises the very
    exception that a missing executable raises. *)
Remark core_one_exception_class :
  fst (Fixture.run Fixture.not_built Fixture.default_config Fixture.with_csv [])
  = fst (Fixture.run Fixture.misleading_warm_up Fixture.default_config
           Fixture.with_csv []).
Proof. reflexivity. Qed.

Lemma core_argv_witness :
  let out := Fixture.run Fixture.healthy (Fixture.three_runs "gpu-scc")
               Fixture.with_csv [] in
  let argv := ["/opt/drivers/fortran/bin/dwarf-cloudsc-gpu-scc"; "1"; "64"; "64"] in
  In (Spawn argv) (snd out)
  /\ argv = [executable Fixture.healthy (Fixture.three_runs "gpu-scc");
             Py.str 1; Py.str 64; Py.str (Z.min 64 128)].
Proof.
  intros out argv.
  assert (Hin : In (Spawn argv) (snd out)) by (vm_compute; auto).
  split; [exact Hin|].
  exact (proj1 (core_argv _ Sample.float Sample.print_performance Sample.to_csv
                  Fixture.healthy (Fixture.three_runs "gpu-scc") Fixture.with_csv
                  (fst out) (snd out) argv (surjective_pairing out) Hin)).
Defined.

Lemma core_row_nproma_witness :
  let out := Fixture.run Fixture.healthy (Fixture.three_runs "fortran")
               Fixture.with_csv [] in
  exists row,
    In (ToCsv row) (snd out) /\ csv_nproma _ row = 128
    /\ forall argv, In (Spawn argv) (snd out) -> nth_error argv 3 = Some "64".
Proof.
  intros out.
  exists (row_of _ "performance.csv" (Fixture.three_runs "fortran") Fixture.with_csv
            (Sample.Mean (repeat (Sample.Finite (Qmake 5 1)) 3),
             Sample.Stddev (repeat (Sample.Finite (Qmake 5 1)) 3),
             Sample.Mean (repeat (Sample.Finite (Qmake 100 1)) 3),
             Sample.Stddev (repeat (Sample.Finite (Qmake 100 1)) 3))).
  match goal with |- In ?e _ /\ _ =>
    assert (Hin : In e (snd out)) by (vm_compute; auto 10)
  end.
  split; [exact Hin|].
  pose proof (core_row_nproma _ Sample.float Sample.print_performance
                Sample.to_csv Fixture.healthy (Fixture.three_runs "fortran")
                Fixture.with_csv (fst out) (snd out) _
                (surjective_pairing out) Hin) as [Hrow Hall].
  split; [exact Hrow|].
  exact (proj2 (Hall eq_refl)).
Defined.

(** ** The layout rules *)

Lemma str_in_In x t : str_in x t = true <-> In x t.
Proof.
  unfold str_in. rewrite existsb_exists. split.
  - intros (y & Hy & Heq). apply String.eqb_eq in Heq. now subst.
  - intros H. exists x. split; [assumption | apply String.eqb_refl].
Qed.

Lemma str_in_not_In x t : str_in x t = false <-> ~ In x t.
Proof.
  rewrite <- str_in_In. destruct (str_in x t); split; congruence.
Qed.

Section ParserRules.

Variable F : Type.
Variable float : string -> option F.

Local Abbreviation parse := (parse_output F float).

(** A well-shaped stream yields the two tokens counted from the end of the
    selected line. *)
Lemma extract_ok stream text lines line x pre a b suf r m :
  Py.decode stream = inr text ->
  Py.split "010" text = lines ->
  Py.index lines line = inr x ->
  tokens x = pre ++ a :: b :: suf ->
  float a = Some r -> float b = Some m ->
  extract F float stream line
    (- Z.of_nat (S (S (length suf)))) (- Z.of_nat (S (length suf)))
  = inr (r, m).
Proof.
  intros Hd Hs Hl Ht Ha Hb. unfold extract. rewrite Hd, Hs, Hl, Ht.
  change (S (length suf)) with (length (b :: suf)) at 1.
  rewrite index_from_end. unfold float_of. rewrite Ha.
  replace (pre ++ a :: b :: suf) with ((pre ++ [a]) ++ b :: suf)
    by now rewrite <- app_assoc.
  rewrite index_from_end. now rewrite Hb.
Qed.



(** The rule of the cuda family: standard output, line 2, tokens 4 and 3
    from the end. *)
Lemma cuda_rule variant out text x pre a b c d r m :
  In variant cuda_variants ->
  Py.decode (stdout out) = inr text ->
  nth_error (Py.split "010" text) 2 = Some x ->
  tokens x = pre ++ [a; b; c; d] ->
  float a = Some r -> float b = Some m ->
  parse variant out = inr (r, m).
Proof.
  intros Hv Hd Hx Ht Ha Hb. unfold parse_output.
  rewrite (proj2 (str_in_In _ _) Hv).
  exact (extract_ok _ _ _ 2 _ _ _ _ [c; d] _ _ Hd eq_refl
           (index_nonneg _ 2 _ Hx) Ht Ha Hb).
Qed.

(** C4, as amended.  For a variant of the scc family the sample is read off
    the error stream: line 3, split on the space character with empty pieces
    dropped, the fifth token from the end as runtime and the fourth from the
    end as throughput.  For a variant in neither family it is read off the
    second-to-last line of the error stream, with the same two offsets. *)
Theorem parse_output_stderr variant out text x pre a b c d e r m :
  Py.decode (stderr out) = inr text ->
  tokens x = pre ++ [a; b; c; d; e] ->
  float a = Some r -> float b = Some m ->
  (In variant scc_variants ->
   nth_error (Py.split "010" text) 3 = Some x ->
   parse variant out = inr (r, m))
  /\ (~ In variant cuda_variants -> ~ In variant scc_variants ->
      forall before last, Py.split "010" text = before ++ [x; last] ->
      parse variant out = inr (r, m)).
Proof.
  intros Hd Ht Ha Hb. split.
  - intros Hv Hx. unfold parse_output.
    assert (str_in variant cuda_variants = false) as ->.
    { apply str_in_not_In. intros Hc.
      simpl in Hv, Hc. intuition (subst; discriminate). }
    rewrite (proj2 (str_in_In _ _) Hv).
    exact (extract_ok _ _ _ 3 _ _ _ _ [c; d; e] _ _ Hd eq_refl
             (index_nonneg _ 3 _ Hx) Ht Ha Hb).
  - intros Hc Hs before last Hl. unfold parse_output.
    rewrite (proj2 (str_in_not_In _ _) Hc), (proj2 (str_in_not_In _ _) Hs).
    refine (extract_ok _ _ _ (-2) _ _ _ _ [c; d; e] _ _ Hd Hl _ Ht Ha Hb).
    exact (index_from_end before [last] x).
Qed.

End ParserRules.

(** C3, as amended.  For a variant of the cuda family the sample is read off
    the standard output: line 2 (counting from 0) of the split on newlines,
    split on the space character with empty pieces dropped, the fourth token
    from the end through [float] as runtime and the third from the end as
    throughput.  In particular the buffer made of two newlines, the line
    [ x 5.0 100.0 y z] and a newline yields the pair (5.0, 100.0). *)
Theorem parse_output_cuda :
  (forall F float variant out text x pre a b c d r m,
     In variant cuda_variants ->
     Py.decode (stdout out) = inr text ->
     nth_error (Py.split "010" text) 2 = Some x ->
     tokens x = pre ++ [a; b; c; d] ->
     float a = Some r -> float b = Some m ->
     parse_output F float variant out = inr (r, m))
  /\ (forall variant code err,
        In variant cuda_variants ->
        parse_output _ Sample.float variant
          {| returncode := code;
             stdout := Fixture.nl ++ Fixture.nl ++ " x 5.0 100.0 y z" ++ Fixture.nl;
             stderr := err |}
        = inr (Sample.Finite (Qmake 5 1), Sample.Finite (Qmake 100 1))).
Proof.
  split.
  - intros F float variant out text x pre a b c d r m.
    apply cuda_rule.
  - intros variant code err Hv. simpl in Hv.
    destruct Hv as [<-|[<-|[<-|[]]]]; reflexivity.
Qed.

Lemma parse_output_cuda_witness :
  parse_output _ Sample.float "cuda-hoist"
    (Fixture.prints 0
       (Fixture.nl ++ Fixture.nl ++ "a  b 7.25 1e3 c  d" ++ Fixture.nl))
  = inr (Sample.Finite (Qmake 29 4), Sample.Finite (Qmake 1000 1)).
Proof.
  apply (proj1 parse_output_cuda _ Sample.float "cuda-hoist" _
           (Fixture.nl ++ Fixture.nl ++ "a  b 7.25 1e3 c  d" ++ Fixture.nl)%string
           "a  b 7.25 1e3 c  d" ["a"; "b"] "7.25" "1e3" "c" "d").
  - simpl. auto.
  - reflexivity.
  - reflexivity.
  - reflexivity.
  - reflexivity.
  - reflexivity.
Defined.

(** C3, as stated, fails: with a tab inside the line, the tokens of the
    split on the space character are not the white-space tokens, and the
    driver returns (1.0, 2.0) where the fourth and third white-space tokens
    from the end are 2 and 3. *)
Lemma parse_output_cuda_counterexample :
  let out :=
    {| returncode := 0;
       stdout := Fixture.nl ++ Fixture.nl ++ " 9 1 2 3 4" ++ Fixture.tab ++ "5"
                   ++ Fixture.nl;
       stderr := "" |} in
  parse_output _ Sample.float "cuda" out
    = inr (Sample.Finite (Qmake 1 1), Sample.Finite (Qmake 2 1))
  /\ Spec.sample Sample.float (stdout out) 2 (-4) (-3)
    = inr (Sample.Finite (Qmake 2 1), Sample.Finite (Qmake 3 1))
  /\ parse_output _ Sample.float "cuda" out
     <> Spec.sample Sample.float (stdout out) 2 (-4) (-3).
Proof.
  intros out. split; [reflexivity|]. split; [reflexivity|].
  vm_compute. discriminate.
Qed.

Lemma parse_output_stderr_witness :
  let scc := ("l0" ++ Fixture.nl ++ "l1" ++ Fixture.nl ++ "l2" ++ Fixture.nl
                ++ "t 12.5 300 u v w" ++ Fixture.nl)%string in
  let cpu := ("l0" ++ Fixture.nl ++ "t 12.5 300 u v w" ++ Fixture.nl)%string in
  let sample := (Sample.Finite (Qmake 25 2), Sample.Finite (Qmake 300 1)) in
  parse_output _ Sample.float "gpu-scc" (Fixture.prints 0 scc) = inr sample
  /\ parse_output _ Sample.float "fortran" (Fixture.prints 0 cpu) = inr sample.
Proof.
  intros scc cpu sample. split.
  - apply (proj1 (parse_output_stderr _ Sample.float "gpu-scc"
                    (Fixture.prints 0 scc) scc
                    "t 12.5 300 u v w" ["t"] "12.5" "300" "u" "v" "w"
                    (fst sample) (snd sample)
                    eq_refl eq_refl eq_refl eq_refl)).
    + simpl. auto.
    + reflexivity.
  - apply (proj2 (parse_output_stderr _ Sample.float "fortran"
                    (Fixture.prints 0 cpu) cpu
                    "t 12.5 300 u v w" ["t"] "12.5" "300" "u" "v" "w"
                    (fst sample) (snd sample)
                    eq_refl eq_refl eq_refl eq_refl))
      with (before := ["l0"]) (last := EmptyString).
    + simpl. intuition discriminate.
    + simpl. intuition discriminate.
    + reflexivity.
Defined.

(** C4, as stated, fails for the same reason as C3: on a line with a tab the
    driver takes tokens of the split on the space character. *)
Lemma parse_output_stderr_counterexample :
  let out :=
    {| returncode := 0;
       stdout := "";
       stderr := "9 1 2 3 4 5" ++ Fixture.tab ++ "6" ++ Fixture.nl |} in
  parse_output _ Sample.float "fortran" out
    = inr (Sample.Finite (Qmake 1 1), Sample.Finite (Qmake 2 1))
  /\ Spec.sample Sample.float (stderr out) (-2) (-5) (-4)
    = inr (Sample.Finite (Qmake 2 1), Sample.Finite (Qmake 3 1))
  /\ parse_output _ Sample.float "fortran" out
     <> Spec.sample Sample.float (stderr out) (-2) (-5) (-4).
Proof.
  intros out. split; [reflexivity|]. split; [reflexivity|].
  vm_compute. discriminate.
Qed.


(** Two things to keep in mind when reading "token" and "numeric".  A tab
    between two spaces is a token of its own for the driver, so a line with
    four white-space tokens can have five tokens.  And [float] reads the
    words for not-a-number and infinity, so they are numeric tokens. *)
Remark tokens_and_floats :
  let line := ("7 8 " ++ Fixture.tab ++ " 9 10")%string in
  let not_a_number :=
    Fixture.prints 0 (Fixture.nl ++ Fixture.nl ++ "x nan inf y z" ++ Fixture.nl) in
  Spec.whitespace_tokens line = ["7"; "8"; "9"; "10"]
  /\ tokens line = ["7"; "8"; Fixture.tab; "9"; "10"]
  /\ parse_output _ Sample.float "fortran" (Fixture.prints 0 (line ++ Fixture.nl))
     = inr (Sample.Finite (Qmake 7 1), Sample.Finite (Qmake 8 1))
  /\ parse_output _ Sample.float "cuda" not_a_number
     = inr (Sample.NaN, Sample.Infinity false).
Proof.
  intros line not_a_number. repeat split.
Qed.

(** ** The order of the steps *)

Section Orchestration.

Variable F : Type.
Variable float : string -> option F.
Variable print_performance : Z -> list F -> list F -> result (F * F * F * F).
Variable to_csv : csv_row F -> result unit.

Local Abbreviation parse := (parse_output F float).
Local Abbreviation run := (core F float print_performance to_csv).

(** The measured runs do not look at the first child. *)
Lemma collect_with_warm_up out0 w config n : forall start,
  collect F float (with_warm_up out0 w) config (S start) n
  = collect F float w config (S start) n.
Proof.
  induction n as [|n IH]; intros start; [reflexivity|].
  cbn [collect]. rewrite IH. reflexivity.
Qed.

(** C7.  An invocation goes through its steps once and in order: the trace
    is a number of identical spawns, never more than one plus the number of
    runs, and only after all of them the aggregation, and only after that
    possibly the row.  If the warm-up exits with a non-zero status the trace
    is that single spawn and [core] raises.  If [core] returns, exactly one
    plus [num_runs] children were started, the samples handed to the
    aggregation are the parses of the children after the first, in order, and
    the row is written only if a file was configured.  The output of a
    successful warm-up is not looked at: replacing it changes nothing. *)
Theorem core_linear_order w config io_config r tr :
  run w config io_config [] = (r, tr) ->
  let a := argv_of w config in
  let n := Z.to_nat (num_runs config) in
  (exists k tail,
     tr = repeat (Spawn a) k ++ tail /\ (k <= 1 + n)%nat
     /\ (tail = [] \/
         (k = 1 + n)%nat /\
         exists runtime_l mflops_l rest,
           length runtime_l = n /\ length mflops_l = n
           /\ tail = PrintPerformance (num_cols config) runtime_l mflops_l :: rest
           /\ (rest = [] \/
               exists row, rest = [ToCsv row]
                           /\ output_csv_file io_config = Some (csv_file F row))))
  /\ (path_exists w (executable w config) = true ->
      returncode (child w 0 a) <> 0 ->
      tr = [Spawn a] /\ exists e, r = inl e)
  /\ (r = inr tt ->
      exists ss stats,
        length ss = n
        /\ (forall i s, nth_error ss i = Some s ->
              parse (variant config) (child w (S i) a) = inr s)
        /\ print_performance (num_cols config) (map fst ss) (map snd ss)
           = inr stats
        /\ tr = repeat (Spawn a) (1 + n)
                  ++ PrintPerformance (num_cols config) (map fst ss) (map snd ss)
                  :: persisted F config io_config stats
        /\ spawned tr = (1 + n)%nat
        /\ (0 <= num_runs config -> Z.of_nat (spawned tr) = num_runs config + 1))
  /\ (forall out0,
        returncode (child w 0 a) = 0 -> returncode out0 = 0 ->
        run (with_warm_up out0 w) config io_config [] = (r, tr)).
Proof.
  intros Hrun a n. split; [|split; [|split]].
  - destruct (core_trace_shape _ _ _ _ _ _ _ _ _ Hrun)
      as (k & tail & Htr & Hk & Htail).
    exists k, tail. split; [exact Htr|]. split; [exact Hk|].
    destruct Htail as [->|(Hkn & ss & Hlen & _ & Hpp)]; [now left|].
    right. split; [exact Hkn|]. cbv zeta in Hpp.
    exists (map fst ss), (map snd ss).
    destruct Hpp as [->|(stats & _ & ->)].
    + exists []. rewrite !length_map. repeat split; auto.
    + exists (persisted F config io_config stats).
      rewrite !length_map. repeat split; auto.
      unfold persisted. destruct (output_csv_file io_config) as [file|]; [|now left].
      right. eexists. split; [reflexivity|].
      destruct stats as [[[? ?] ?] ?]. reflexivity.
  - intros Hex Hrc. rewrite core_cases in Hrun. fold a n in Hrun.
    rewrite Hex in Hrun. cbn [negb] in Hrun.
    destruct (Z.eqb_spec (returncode (child w 0 a)) 0) as [|_]; [contradiction|].
    injection Hrun as <- <-. split; [reflexivity|].
    destruct (Py.decode _); eexists; reflexivity.
  - intros ->. rewrite core_cases in Hrun. fold a n in Hrun.
    destruct (negb (path_exists w (executable w config))); [discriminate|].
    destruct (returncode (child w 0 a) =? 0); [|destruct (Py.decode _); discriminate].
    destruct (snd (collect F float w config 1 n)) as [e|ss] eqn:Hc; [discriminate|].
    cbv zeta in Hrun.
    destruct (print_performance _ _ _) as [e|stats] eqn:Hpp; [discriminate|].
    exists ss, stats. apply collect_ok in Hc. destruct Hc as [Hlen Hall].
    assert (Htr : tr = repeat (Spawn a) (1 + n)
                    ++ PrintPerformance (num_cols config) (map fst ss) (map snd ss)
                    :: persisted F config io_config stats).
    { unfold persisted. destruct (output_csv_file io_config).
      - injection Hrun as _ <-. now rewrite <- app_assoc.
      - injection Hrun as <-. reflexivity. }
    assert (Hsp : spawned tr = (1 + n)%nat).
    { rewrite Htr, spawned_app, spawned_repeat. cbn [spawned].
      unfold persisted. destruct (output_csv_file io_config); cbn [spawned]; lia. }
    repeat split; auto.
    intros Hn. rewrite Hsp. unfold n. lia.
  - intros out0 Hrc Hrc0. rewrite <- Hrun. rewrite !core_cases.
    change (argv_of (with_warm_up out0 w) config) with a.
    change (executable (with_warm_up out0 w) config) with (executable w config).
    change (path_exists (with_warm_up out0 w)) with (path_exists w).
    change (child (with_warm_up out0 w) 0 a) with out0.
    fold a n. rewrite collect_with_warm_up, Hrc, Hrc0. reflexivity.
Qed.

(** C8, as amended.  Without an output file [to_csv] is never called, on
    whatever path [core] takes.  If moreover the executable exists, the
    warm-up exits with status 0, the output of every measured run parses and
    the aggregation returns, then [core] completes: it has started one plus
    [num_runs] children, has called [print_performance] on the samples, and
    returns [None]; the four statistics stay inside [core]. *)
Theorem core_without_csv w config io_config :
  output_csv_file io_config = None ->
  let a := argv_of w config in
  let n := Z.to_nat (num_runs config) in
  (forall r tr, run w config io_config [] = (r, tr) ->
     forall row, ~ In (ToCsv row) tr)
  /\ (forall ss stats,
        path_exists w (executable w config) = true ->
        returncode (child w 0 a) = 0 ->
        length ss = n ->
        (forall i s, nth_error ss i = Some s ->
           parse (variant config) (child w (S i) a) = inr s) ->
        print_performance (num_cols config) (map fst ss) (map snd ss)
          = inr stats ->
        run w config io_config []
        = (inr tt,
           repeat (Spawn a) (1 + n)
             ++ [PrintPerformance (num_cols config) (map fst ss) (map snd ss)])).
Proof.
  intros Hio a n. split.
  - intros r tr Hrun row Hin.
    destruct (core_trace_shape _ _ _ _ _ _ _ _ _ Hrun)
      as (k & tail & -> & _ & Htail).
    apply in_app_or in Hin. destruct Hin as [Hin|Hin].
    + apply repeat_spec in Hin. discriminate.
    + destruct Htail as [->|(_ & ss & _ & _ & [->|(stats & _ & ->)])].
      * destruct Hin.
      * destruct Hin as [Hin|[]]. discriminate.
      * unfold persisted in Hin. rewrite Hio in Hin.
        destruct Hin as [Hin|[]]. discriminate.
  - intros ss stats Hex Hrc Hlen Hall Hpp.
    rewrite core_cases. fold a n. rewrite Hex, Hrc. cbn [negb Z.eqb].
    assert (Hc : snd (collect F float w config 1 n) = inr ss).
    { apply collect_ok. split; [exact Hlen|]. exact Hall. }
    rewrite Hc. cbv zeta. rewrite Hpp, Hio. reflexivity.
Qed.

End Orchestration.

Lemma core_linear_order_witness :
  let out := Fixture.run Fixture.healthy (Fixture.three_runs "fortran")
               Fixture.with_csv [] in
  fst out = inr tt
  /\ spawned (snd out) = 4%nat
  /\ Fixture.run (with_warm_up (Fixture.prints 0 "no banner at all") Fixture.healthy)
       (Fixture.three_runs "fortran") Fixture.with_csv [] = out.
Proof.
  intros out.
  destruct (core_linear_order _ Sample.float Sample.print_performance
              Sample.to_csv Fixture.healthy (Fixture.three_runs "fortran")
              Fixture.with_csv (fst out) (snd out) (surjective_pairing out))
    as (_ & _ & Hok & Hwarm).
  split; [reflexivity|]. split.
  - destruct (Hok eq_refl) as (ss & stats & _ & _ & _ & _ & Hn & _). exact Hn.
  - rewrite (surjective_pairing out). apply Hwarm; reflexivity.
Defined.

Lemma core_without_csv_witness :
  Fixture.run Fixture.healthy Fixture.default_config Fixture.no_csv []
  = (inr tt,
     [Spawn ["/opt/drivers/fortran/bin/dwarf-cloudsc-fortran"; "1"; "1"; "1"];
      Spawn ["/opt/drivers/fortran/bin/dwarf-cloudsc-fortran"; "1"; "1"; "1"];
      PrintPerformance 1 [Sample.Finite (Qmake 5 1)] [Sample.Finite (Qmake 100 1)]]).
Proof.
  apply (proj2 (core_without_csv _ Sample.float Sample.print_performance
                  Sample.to_csv Fixture.healthy Fixture.default_config
                  Fixture.no_csv eq_refl)
           [(Sample.Finite (Qmake 5 1), Sample.Finite (Qmake 100 1))]
           (Sample.Mean [Sample.Finite (Qmake 5 1)],
            Sample.Stddev [Sample.Finite (Qmake 5 1)],
            Sample.Mean [Sample.Finite (Qmake 100 1)],
            Sample.Stddev [Sample.Finite (Qmake 100 1)])).
  - reflexivity.
  - reflexivity.
  - reflexivity.
  - intros [|[|i]] s Hs; simpl in Hs; try discriminate.
    injection Hs as <-. reflexivity.
  - reflexivity.
Defined.

(** C8, as stated, fails.  An invocation without an output file need not
    complete: with a missing executable it raises.  And one that completes
    hands nothing back: [core] returns [None] although the aggregation has
    produced the four statistics. *)
Lemma core_without_csv_counterexample :
  output_csv_file Fixture.no_csv = None
  /\ Fixture.run Fixture.not_built Fixture.default_config Fixture.no_csv []
     = (inl (RuntimeError
               "The executable `/opt/drivers/fortran/bin/dwarf-cloudsc-fortran` does not exist."),
        [])
  /\ fst (Fixture.run Fixture.healthy Fixture.default_config Fixture.no_csv [])
     = inr tt
  /\ Sample.print_performance 1
       [Sample.Finite (Qmake 5 1)] [Sample.Finite (Qmake 100 1)]
     = inr (Sample.Mean [Sample.Finite (Qmake 5 1)],
            Sample.Stddev [Sample.Finite (Qmake 5 1)],
            Sample.Mean [Sample.Finite (Qmake 100 1)],
            Sample.Stddev [Sample.Finite (Qmake 100 1)]).
Proof. repeat split. Qed.

(** The measuring loop does not look at exit statuses. *)
Lemma collect_with_exit_status F float code w config n : forall start,
  collect F float (with_exit_status code w) config (S start) n
  = collect F float w config (S start) n.
Proof.
  induction n as [|n IH]; intros start; [reflexivity|].
  cbn [collect]. rewrite IH. reflexivity.
Qed.

(** C1, where the driver falls short of it.  The exit status of a measured
    run is never looked at: whatever status the children after the warm-up
    exit with, [core] behaves as if it were the one they have in [w].  At a
    concrete input: the warm-up exits with status 0, the one measured run
    prints its banner and exits with status 1, and [core] parses the banner,
    aggregates the sample and writes the row instead of raising. *)
Theorem core_ignores_failed_run :
  (forall F float print_performance to_csv w config io_config code,
     core F float print_performance to_csv (with_exit_status code w)
       config io_config []
     = core F float print_performance to_csv w config io_config [])
  /\ (let a := ["/opt/drivers/fortran/bin/dwarf-cloudsc-fortran"; "1"; "1"; "1"] in
      returncode (child Fixture.failing_after_warm_up 1 a) = 1
      /\ Fixture.run Fixture.failing_after_warm_up Fixture.default_config
           Fixture.with_csv []
         = (inr tt,
            [Spawn a; Spawn a;
             PrintPerformance 1
               [Sample.Finite (Qmake 5 1)] [Sample.Finite (Qmake 100 1)];
             ToCsv (row_of _ "performance.csv" Fixture.default_config
                      Fixture.with_csv
                      (Sample.Mean [Sample.Finite (Qmake 5 1)],
                       Sample.Stddev [Sample.Finite (Qmake 5 1)],
                       Sample.Mean [Sample.Finite (Qmake 100 1)],
                       Sample.Stddev [Sample.Finite (Qmake 100 1)]))])).
Proof.
  split.
  - intros F float print_performance to_csv w config io_config code.
    rewrite !core_cases.
    change (argv_of (with_exit_status code w) config) with (argv_of w config).
    change (executable (with_exit_status code w) config)
      with (executable w config).
    change (path_exists (with_exit_status code w)) with (path_exists w).
    change (child (with_exit_status code w) 0 (argv_of w config))
      with (child w 0 (argv_of w config)).
    rewrite collect_with_exit_status. reflexivity.
  - split; reflexivity.
Qed.

(** The warm-up is the one child whose exit status is checked: a non-zero
    status raises [RuntimeError] with the decoded error stream as its
    message, after that single spawn. *)
Lemma core_warm_up_failure F float print_performance to_csv w config io_config :
  path_exists w (executable w config) = true ->
  returncode (child w 0 (argv_of w config)) <> 0 ->
  Py.utf8_valid (stderr (child w 0 (argv_of w config))) = true ->
  core F float print_performance to_csv w config io_config []
  = (inl (RuntimeError (stderr (child w 0 (argv_of w config)))),
     [Spawn (argv_of w config)]).
Proof.
  intros Hex Hrc Hutf. rewrite core_cases, Hex. cbn [negb].
  destruct (Z.eqb_spec (returncode (child w 0 (argv_of w config))) 0);
    [contradiction|].
  unfold Py.decode. now rewrite Hutf.
Qed.

Example core_warm_up_failure_ex :
  Fixture.run Fixture.failing_warm_up Fixture.default_config Fixture.with_csv []
  = (inl (RuntimeError "segfault"),
     [Spawn ["/opt/drivers/fortran/bin/dwarf-cloudsc-fortran"; "1"; "1"; "1"]]).
Proof. reflexivity. Qed.

(** ** The saturation ratio *)

(** The comparison of IEEE floats. *)

Lemma SFcompare_antisym (a b : spec_float) :
  SFcompare b a = option_map CompOpp (SFcompare a b).
Proof.
  destruct a as [sa|sa| |sa ma ea], b as [sb|sb| |sb mb eb]; simpl;
    try reflexivity.
  all: try (destruct sa; reflexivity).
  all: try (destruct sb; reflexivity).
  all: try (destruct sa, sb; reflexivity).
  change (PosDef.Pos.compare_cont Eq ma mb) with (ma ?= mb)%positive.
  change (PosDef.Pos.compare_cont Eq mb ma) with (mb ?= ma)%positive.
  rewrite (Z.compare_antisym ea eb), (Pos.compare_antisym ma mb).
  destruct sa, sb; try reflexivity;
    destruct (ea ?= eb)%Z; simpl; try reflexivity;
    destruct (ma ?= mb)%positive; reflexivity.
Qed.

Lemma SFcompare_refl (a : spec_float) :
  Fccld.is_nan a = false -> SFcompare a a = Some Eq.
Proof.
  destruct a as [s|s| |s m e]; simpl; try discriminate; intros _.
  - reflexivity.
  - destruct s; reflexivity.
  - rewrite Z.compare_refl.
    change (PosDef.Pos.compare_cont Eq m m) with (m ?= m)%positive.
    rewrite Pos.compare_refl. destruct s; reflexivity.
Qed.

(** Two floats are incomparable exactly when one of them is NaN. *)
Lemma SFcompare_nan (a b : spec_float) :
  Fccld.is_nan a || Fccld.is_nan b = true <-> SFcompare a b = None.
Proof.
  destruct a as [sa|sa| |sa ma ea], b as [sb|sb| |sb mb eb]; simpl;
    split; intros H; try reflexivity; try discriminate.
Qed.

Lemma SFltb_nan_l a b : Fccld.is_nan a = true -> SFltb a b = false.
Proof. destruct a; try discriminate. reflexivity. Qed.

Lemma SFltb_nan_r a b : Fccld.is_nan b = true -> SFltb a b = false.
Proof. destruct b; try discriminate. intros _. unfold SFltb. now destruct a. Qed.

(** Comparison of IEEE floats is asymmetric, NaN included. *)
Lemma SFltb_asym (a b : spec_float) : SFltb a b = true -> SFltb b a = false.
Proof.
  unfold SFltb. rewrite (SFcompare_antisym a b).
  destruct (SFcompare a b) as [[| |]|]; simpl; congruence.
Qed.

Lemma SFltb_irrefl a : SFltb a a = false.
Proof.
  destruct (SFltb a a) eqn:H; [|reflexivity].
  now rewrite <- H, (SFltb_asym a a H).
Qed.

Lemma SFleb_refl a : Fccld.is_nan a = false -> SFleb a a = true.
Proof. intros H. unfold SFleb. now rewrite (SFcompare_refl a H). Qed.

Lemma SFltb_leb a b : SFltb a b = true -> SFleb a b = true.
Proof.
  unfold SFltb, SFleb. destruct (SFcompare a b) as [[| |]|]; congruence.
Qed.

Lemma SFltb_false_leb a b :
  Fccld.is_nan a = false -> Fccld.is_nan b = false ->
  SFltb a b = false -> SFleb b a = true.
Proof.
  intros Ha Hb. unfold SFltb, SFleb. rewrite (SFcompare_antisym a b).
  destruct (SFcompare a b) as [[| |]|] eqn:Hc; simpl; try congruence.
  apply SFcompare_nan in Hc. rewrite Ha, Hb in Hc. discriminate.
Qed.

Lemma SFltb_numbers a b :
  SFltb a b = true -> Fccld.is_nan a = false /\ Fccld.is_nan b = false.
Proof.
  intros H. split.
  - destruct (Fccld.is_nan a) eqn:E; [|reflexivity].
    now rewrite (SFltb_nan_l a b E) in H.
  - destruct (Fccld.is_nan b) eqn:E; [|reflexivity].
    now rewrite (SFltb_nan_r a b E) in H.
Qed.

(** C10.  On IEEE floats, with whatever rounding the arithmetic has and with
    each of the three minima a backend can compile [min] to, the value of
    [f_fokoop] at [t] is the minimum of the bound [RKOOP1 - RKOOP2 * t] and
    the ratio [f_foeeliq(t) / f_foeeice(t)]: it is one of the two, neither of
    them is smaller, and it is at most each of them that is a number when it
    is a number itself.  So it never exceeds the bound.  It is NaN when the
    bound or the ratio is NaN under [numpy.minimum], when the bound is under
    the comparison, when both are under [fmin]. *)
Theorem f_fokoop_bound (k : Fccld.minimum_kind)
    (sub mul div : spec_float -> spec_float -> spec_float)
    (RKOOP1 RKOOP2 : spec_float) (f_foeeliq f_foeeice : spec_float -> spec_float)
    (t : spec_float) :
  let koop := Fccld.f_fokoop spec_float sub mul div (Fccld.minimum k)
                RKOOP1 RKOOP2 f_foeeliq f_foeeice t in
  let bound := sub RKOOP1 (mul RKOOP2 t) in
  let ratio := div (f_foeeliq t) (f_foeeice t) in
  (koop = bound \/ koop = ratio)
  /\ SFltb bound koop = false
  /\ SFltb ratio koop = false
  /\ (Fccld.is_nan bound = false -> Fccld.is_nan koop = false ->
      SFleb koop bound = true)
  /\ (Fccld.is_nan ratio = false -> Fccld.is_nan koop = false ->
      SFleb koop ratio = true)
  /\ Fccld.is_nan koop
     = match k with
       | Fccld.Propagating => Fccld.is_nan bound || Fccld.is_nan ratio
       | Fccld.Comparing => Fccld.is_nan bound
       | Fccld.Ignoring => Fccld.is_nan bound && Fccld.is_nan ratio
       end.
Proof.
  intros koop bound ratio.
  unfold koop, Fccld.f_fokoop. fold bound ratio. clearbody bound ratio.
  clear koop.
  pose proof (SFltb_irrefl bound) as Hib.
  pose proof (SFltb_irrefl ratio) as Hir.
  destruct (Fccld.is_nan bound) eqn:Eb; destruct (Fccld.is_nan ratio) eqn:Er;
    try rewrite (SFltb_nan_l bound ratio) by assumption;
    try rewrite (SFltb_nan_r bound ratio) by assumption.
  all: destruct k; unfold Fccld.minimum; rewrite ?Eb, ?Er; cbn [orb andb];
    try rewrite (SFltb_nan_l bound ratio) by assumption;
    try rewrite (SFltb_nan_r bound ratio) by assumption;
    try rewrite (SFltb_nan_l ratio bound) by assumption;
    try rewrite (SFltb_nan_r ratio bound) by assumption.
  all: try (destruct (SFltb bound ratio) eqn:Hbr);
    try (destruct (SFltb ratio bound) eqn:Hrb).
  all: rewrite ?Eb, ?Er, ?Hib, ?Hir.
  all: repeat split; auto; try congruence.
  all: try (intros; apply SFleb_refl; assumption).
  all: try (intros; apply SFltb_leb; assumption).
  all: try (intros; apply SFltb_false_leb; assumption).
  all: try (apply SFltb_asym; assumption).
  all: try (apply SFltb_nan_l; assumption).
  all: try (apply SFltb_nan_r; assumption).
  all: try (exfalso; match goal with
                     | H : SFltb _ _ = true |- _ =>
                         destruct (SFltb_numbers _ _ H); congruence
                     end).
  all: try (exfalso; match goal with
                     | H : SFltb ?a ?b = true, H' : SFltb ?b ?a = true |- _ =>
                         pose proof (SFltb_asym _ _ H); congruence
                     end).
Qed.

(** In double precision, with a ratio 0 / 0: the minimum of [numpy] gives
    NaN, the comparison gives the bound 2583 - 5 * 250 = 1333, and so does
    [fmin].  With a ratio that is a number all three give the same. *)
Example f_fokoop_at_nan :
  let t := Fccld.binary64 250 0 in
  let zero := fun _ : spec_float => S754_zero false in
  let liq := fun x => SFmul 53 1024 x x in
  let ice := fun _ : spec_float => Fccld.binary64 300 0 in
  map (fun k => Fccld.koop_double k zero zero t)
    [Fccld.Propagating; Fccld.Comparing; Fccld.Ignoring]
  = [S754_nan; Fccld.binary64 1333 0; Fccld.binary64 1333 0]
  /\ map (fun k => Fccld.koop_double k liq ice t)
       [Fccld.Propagating; Fccld.Comparing; Fccld.Ignoring]
     = repeat (SFdiv 53 1024 (Fccld.binary64 62500 0) (Fccld.binary64 300 0)) 3.
Proof. split; reflexivity. Qed.

(** * Further properties of the driver *)

(** ** Splitting *)

(** Splitting distributes over a separator. *)
Lemma split_at_sep sep a b :
  Py.split sep (a ++ String sep b) = Py.split sep a ++ Py.split sep b.
Proof.
  induction a as [|c r IH]; simpl.
  - now rewrite Ascii.eqb_refl.
  - destruct (Ascii.eqb c sep).
    + now rewrite IH.
    + rewrite IH. pose proof (split_nonempty sep r) as Hne.
      destruct (Py.split sep r); [contradiction | reflexivity].
Qed.

(** X8.  The tokens of a line are the tokens of its parts between spaces, in
    order; hence spaces at either end of a line and runs of spaces inside it
    change nothing, and neither does the column at which a token stands. *)
Theorem tokens_at_space (a b : string) :
  tokens (a ++ String " " b) = tokens a ++ tokens b
  /\ tokens (String " " a) = tokens a
  /\ tokens (a ++ " ") = tokens a
  /\ tokens (a ++ String " " (String " " b)) = tokens (a ++ String " " b).
Proof.
  assert (H : forall x y, tokens (x ++ String " " y) = tokens x ++ tokens y).
  { intros x y. unfold tokens. now rewrite split_at_sep, filter_app. }
  split; [apply H|]. split; [|split].
  - reflexivity.
  - change (a ++ " ")%string with (a ++ String " " EmptyString)%string.
    rewrite H. apply app_nil_r.
  - rewrite !H. reflexivity.
Qed.



(** ** The executable path *)

Lemma append_assoc (a b c : string) :
  ((a ++ b) ++ c = a ++ (b ++ c))%string.
Proof. induction a as [|x a IH]; simpl; [reflexivity | now rewrite IH]. Qed.

Lemma endswith_slash_app p : Py.endswith_slash (p ++ "/") = true.
Proof.
  induction p as [|c r IH]; [reflexivity|].
  change ((String c r ++ "/")%string) with (String c (r ++ "/")%string).
  cbn [Py.endswith_slash]. rewrite IH.
  destruct (r ++ "/")%string eqn:E; [|reflexivity].
  destruct r; discriminate.
Qed.

(** X7.  The path that [core] looks for always ends in
    [bin/dwarf-cloudsc-<variant>], directly after a slash or at the very
    start; and if the build directory is absolute, the directory of the
    driver module plays no part in it. *)
Theorem executable_shape w config :
  (exists dir,
     executable w config
       = (dir ++ "bin/dwarf-cloudsc-" ++ variant config)%string
     /\ (dir = EmptyString \/ Py.endswith_slash dir = true))
  /\ (Py.startswith_slash (build_dir config) = true ->
      forall w', executable w' config = executable w config).
Proof.
  unfold executable, Py.path_join. cbn [fold_left Py.startswith_slash].
  change (Ascii.eqb "b" "/") with false. cbv iota.
  split.
  - set (path := if Py.startswith_slash (build_dir config) then build_dir config
                 else if negb (Py.nonempty (module_dir w))
                         || Py.endswith_slash (module_dir w)
                      then (module_dir w ++ build_dir config)%string
                      else (module_dir w ++ "/" ++ build_dir config)%string).
    destruct (Py.nonempty path) eqn:Hne; cbn [negb orb].
    + destruct (Py.endswith_slash path) eqn:Hend.
      * exists path. split; [reflexivity | now right].
      * exists (path ++ "/")%string. split.
        -- now rewrite append_assoc.
        -- right. apply endswith_slash_app.
    + exists path. split; [reflexivity|]. left.
      destruct path; [reflexivity | discriminate].
  - intros Habs w'. now rewrite Habs.
Qed.

Lemma executable_shape_witness :
  let config :=
    {| build_dir := "/scratch/build"; precision := "double"; variant := "gpu-scc";
       nproma := 128; num_cols := 100; num_runs := 2; num_threads := 1 |} in
  let elsewhere :=
    {| module_dir := "/home/user/drivers/";
       path_exists := fun _ => false;
       child := child Fixture.healthy |} in
  executable Fixture.healthy config = "/scratch/build/bin/dwarf-cloudsc-gpu-scc"
  /\ executable elsewhere config = executable Fixture.healthy config.
Proof.
  intros config elsewhere. split; [reflexivity|].
  exact (proj2 (executable_shape Fixture.healthy config) eq_refl elsewhere).
Defined.

(** ** Failures after the warm-up *)

Section DriverEdges.

Variable F : Type.
Variable float : string -> option F.
Variable print_performance : Z -> list F -> list F -> result (F * F * F * F).
Variable to_csv : csv_row F -> result unit.

Local Abbreviation parse := (parse_output F float).
Local Abbreviation run := (core F float print_performance to_csv).

(** The loop stops at the first run whose output does not parse. *)
Lemma collect_first_failure w config n : forall start k e,
  (k < n)%nat ->
  (forall i, (i < k)%nat ->
     exists s, parse (variant config) (child w (start + i) (argv_of w config))
               = inr s) ->
  parse (variant config) (child w (start + k) (argv_of w config)) = inl e ->
  collect F float w config start n = (S k, inl e).
Proof.
  induction n as [|n IH]; intros start k e Hk Hok Hfail; [lia|].
  cbn [collect]. destruct k as [|k].
  - rewrite Nat.add_0_r in Hfail. now rewrite Hfail.
  - destruct (Hok O) as [s Hs]; [lia|]. rewrite Nat.add_0_r in Hs. rewrite Hs.
    rewrite (IH (S start) k e); [reflexivity | lia | |].
    + intros i Hi. destruct (Hok (S i)) as [s' Hs']; [lia|].
      exists s'. now rewrite Nat.add_succ_r in Hs'.
    + now rewrite Nat.add_succ_r in Hfail.
Qed.

(** X1.  If the outputs of the first [k] measured runs parse and that of the
    next one does not, [core] raises the exception of that parse after having
    started exactly [k + 2] children (the warm-up, the [k] good runs and the
    bad one); the remaining runs are not started, nothing is aggregated and
    nothing is written. *)
Theorem core_first_unparsable w config io_config k e :
  let a := argv_of w config in
  path_exists w (executable w config) = true ->
  returncode (child w 0 a) = 0 ->
  (k < Z.to_nat (num_runs config))%nat ->
  (forall i, (i < k)%nat ->
     exists s, parse (variant config) (child w (S i) a) = inr s) ->
  parse (variant config) (child w (S k) a) = inl e ->
  run w config io_config [] = (inl e, repeat (Spawn a) (k + 2)).
Proof.
  intros a Hex Hrc Hk Hok Hfail.
  rewrite core_cases. fold a. rewrite Hex, Hrc. cbn [negb Z.eqb].
  rewrite (collect_first_failure w config _ 1 k e Hk Hok Hfail). cbn [fst snd].
  replace (1 + S k)%nat with (k + 2)%nat by lia. reflexivity.
Qed.

(** X3.  A number of runs that is zero or negative is not rejected: after a
    successful warm-up no further child is started and [print_performance]
    is called with two empty lists; what it does with them decides the
    outcome. *)
Theorem core_no_runs w config io_config :
  let a := argv_of w config in
  let called := PrintPerformance (num_cols config) [] [] in
  num_runs config <= 0 ->
  path_exists w (executable w config) = true ->
  returncode (child w 0 a) = 0 ->
  run w config io_config [] =
  match print_performance (num_cols config) [] [] with
  | inl e => (inl e, [Spawn a; called])
  | inr stats =>
      (match output_csv_file io_config with
       | Some file => to_csv (row_of F file config io_config stats)
       | None => inr tt
       end,
       Spawn a :: called :: persisted F config io_config stats)
  end.
Proof.
  intros a called Hn Hex Hrc.
  rewrite core_cases. fold a. rewrite Hex, Hrc. cbn [negb Z.eqb].
  replace (Z.to_nat (num_runs config)) with O by lia.
  cbn [collect snd map repeat app Nat.add]. fold called.
  destruct (print_performance (num_cols config) [] []) as [e|stats];
    [reflexivity|].
  unfold persisted. destruct (output_csv_file io_config); reflexivity.
Qed.

(** X2.  Once every measured run has parsed, the outcome is decided by the
    two helpers.  If [print_performance] raises, [core] raises the same and
    [to_csv] is not called.  If it returns and a file is configured, [to_csv]
    is called once, with the row built from the configuration and these
    statistics, and [core] returns or raises as [to_csv] does: a failure to
    write is not caught. *)
Theorem core_after_runs w config io_config ss :
  let a := argv_of w config in
  let n := Z.to_nat (num_runs config) in
  let called := PrintPerformance (num_cols config) (map fst ss) (map snd ss) in
  path_exists w (executable w config) = true ->
  returncode (child w 0 a) = 0 ->
  length ss = n ->
  (forall i s, nth_error ss i = Some s ->
     parse (variant config) (child w (S i) a) = inr s) ->
  (forall e,
     print_performance (num_cols config) (map fst ss) (map snd ss) = inl e ->
     run w config io_config [] = (inl e, repeat (Spawn a) (1 + n) ++ [called]))
  /\ (forall stats file,
        print_performance (num_cols config) (map fst ss) (map snd ss)
          = inr stats ->
        output_csv_file io_config = Some file ->
        run w config io_config []
        = (to_csv (row_of F file config io_config stats),
           repeat (Spawn a) (1 + n)
             ++ [called; ToCsv (row_of F file config io_config stats)])).
Proof.
  intros a n called Hex Hrc Hlen Hall.
  assert (Hc : snd (collect F float w config 1 n) = inr ss).
  { apply collect_ok. split; [exact Hlen | exact Hall]. }
  split.
  - intros e Hpp. rewrite core_cases. fold a n.
    rewrite Hex, Hrc. cbn [negb Z.eqb]. rewrite Hc. cbv zeta.
    now rewrite Hpp.
  - intros stats file Hpp Hio. rewrite core_cases. fold a n.
    rewrite Hex, Hrc. cbn [negb Z.eqb]. rewrite Hc. cbv zeta.
    rewrite Hpp, Hio. now rewrite <- app_assoc.
Qed.

(** X4.  A warm-up that exits with a non-zero status, negative ones
    included, ends the invocation after that one child.  The exception is a
    [RuntimeError] whose message is the error stream, unless the stream is
    not UTF-8: then decoding it raises [UnicodeDecodeError] and the
    diagnostic is lost. *)
Theorem core_warm_up_outcome w config io_config :
  let a := argv_of w config in
  path_exists w (executable w config) = true ->
  returncode (child w 0 a) <> 0 ->
  run w config io_config [] =
  (inl (if Py.utf8_valid (stderr (child w 0 a))
        then RuntimeError (stderr (child w 0 a))
        else UnicodeDecodeError),
   [Spawn a]).
Proof.
  intros a Hex Hrc. rewrite core_cases. fold a. rewrite Hex. cbn [negb].
  destruct (Z.eqb_spec (returncode (child w 0 a)) 0); [contradiction|].
  unfold Py.decode. destruct (Py.utf8_valid _); reflexivity.
Qed.

(** Of a completed process the parse reads one stream only. *)
Lemma parse_output_stream variant out out' :
  (if str_in variant cuda_variants then stdout out else stderr out)
  = (if str_in variant cuda_variants then stdout out' else stderr out') ->
  parse variant out = parse variant out'.
Proof.
  unfold parse_output. destruct (str_in variant cuda_variants).
  - now intros ->.
  - intros ->. reflexivity.
Qed.

Lemma collect_ext w w' config n : forall start,
  argv_of w config = argv_of w' config ->
  (forall k argv, parse (variant config) (child w (S k) argv)
                  = parse (variant config) (child w' (S k) argv)) ->
  collect F float w config (S start) n = collect F float w' config (S start) n.
Proof.
  induction n as [|n IH]; intros start Ha Hp; [reflexivity|].
  cbn [collect]. rewrite <- Ha, Hp, (IH (S start) Ha Hp). reflexivity.
Qed.

(** X5.  Of a measured run [core] reads one stream and nothing else: the
    standard output for the cuda family, the error stream for every other
    variant.  Two worlds that agree on the file system, on the warm-up and
    on that stream of every later child give the same outcome and the same
    trace, whatever the exit statuses and the other stream of the later
    children are. *)
Theorem core_reads_one_stream w w' config io_config :
  module_dir w = module_dir w' ->
  (forall p, path_exists w p = path_exists w' p) ->
  (forall argv, child w 0 argv = child w' 0 argv) ->
  (forall k argv,
     (if str_in (variant config) cuda_variants
      then stdout (child w (S k) argv) else stderr (child w (S k) argv))
     = (if str_in (variant config) cuda_variants
        then stdout (child w' (S k) argv) else stderr (child w' (S k) argv))) ->
  run w config io_config [] = run w' config io_config [].
Proof.
  intros Hdir Hfs H0 Hs.
  assert (Hexe : executable w config = executable w' config).
  { unfold executable. now rewrite Hdir. }
  assert (Ha : argv_of w config = argv_of w' config).
  { unfold argv_of. now rewrite Hexe. }
  rewrite !core_cases. rewrite <- Ha, <- Hexe, <- Hfs, <- H0.
  rewrite (collect_ext w w' config _ 0 Ha).
  - reflexivity.
  - intros k argv. apply parse_output_stream, Hs.
Qed.

End DriverEdges.

(** ** One invocation after another *)

Section Numbering.

Variable F : Type.
Variable float : string -> option F.
Variable print_performance : Z -> list F -> list F -> result (F * F * F * F).
Variable to_csv : csv_row F -> result unit.

Local Abbreviation parse := (parse_output F float).
Local Abbreviation run := (core F float print_performance to_csv).

Lemma collect_shift k w config n : forall start,
  collect F float (shift k w) config start n
  = collect F float w config (k + start) n.
Proof.
  induction n as [|n IH]; intros start; [reflexivity|].
  cbn [collect]. rewrite IH, Nat.add_succ_r. reflexivity.
Qed.

(** An invocation that finds events in the trace leaves them alone and
    goes on as it would from the empty trace, its children numbered after
    those already started. *)
Lemma core_shift w config io_config tr :
  run w config io_config tr
  = (fst (run (shift (spawned tr) w) config io_config []),
     tr ++ snd (run (shift (spawned tr) w) config io_config [])).
Proof.
  rewrite core_cases. unfold core.
  change (executable (shift (spawned tr) w) config) with (executable w config).
  change (argv_of (shift (spawned tr) w) config) with (argv_of w config).
  change (path_exists (shift (spawned tr) w)) with (path_exists w).
  change (child (shift (spawned tr) w) 0 (argv_of w config))
    with (child w (spawned tr + 0) (argv_of w config)).
  rewrite Nat.add_0_r.
  set (a := argv_of w config). set (n := Z.to_nat (num_runs config)).
  destruct (negb (path_exists w (executable w config)));
    [unfold raise; now rewrite app_nil_r|].
  unfold bind at 1. unfold subprocess_run at 1.
  destruct (returncode (child w (spawned tr) a) =? 0).
  - unfold bind at 1. unfold ret at 1. unfold bind at 1.
    rewrite measure_collect. fold a n.
    rewrite collect_shift, spawned_app. cbn [spawned].
    pose proof (collect_ok_count F float w config n (spawned tr + 1)) as Hcnt.
    destruct (collect F float w config (spawned tr + 1) n) as [k [e|ss]];
      cbn [fst snd] in *.
    + now rewrite <- app_assoc.
    + rewrite (Hcnt ss eq_refl). cbn [app].
      unfold bind at 1. unfold emit at 1. unfold bind at 1. unfold lift at 1.
      destruct (print_performance _ _ _) as [e|stats].
      * cbn [fst snd]. now rewrite <- !app_assoc.
      * destruct (output_csv_file io_config) as [file|].
        -- unfold bind, emit, lift. cbn [fst snd]. now rewrite <- !app_assoc.
        -- unfold ret. cbn [fst snd]. now rewrite <- !app_assoc.
  - unfold bind at 1. unfold bind at 1. unfold lift at 1.
    destruct (Py.decode _); reflexivity.
Qed.

(** If every child's output parses, so do those of the measured runs. *)
Lemma collect_all_ok w config n : forall start,
  (forall k argv, exists s, parse (variant config) (child w k argv) = inr s) ->
  exists ss, collect F float w config start n = (n, inr ss) /\ length ss = n.
Proof.
  induction n as [|n IH]; intros start Hall.
  - exists []. split; reflexivity.
  - cbn [collect]. destruct (Hall start (argv_of w config)) as [s ->].
    destruct (IH (S start) Hall) as (ss & -> & Hlen).
    exists (s :: ss). split; [reflexivity | simpl; now rewrite Hlen].
Qed.


(** X6.  If the executable exists, every child exits with status 0 and
    prints what the variant's layout expects, and the two helpers return,
    then [core] returns, having started exactly one child more than there are
    runs. *)
Theorem core_succeeds w config io_config :
  path_exists w (executable w config) = true ->
  (forall k argv, returncode (child w k argv) = 0) ->
  (forall k argv, exists s, parse (variant config) (child w k argv) = inr s) ->
  (forall cols runtime_l mflops_l,
     exists stats, print_performance cols runtime_l mflops_l = inr stats) ->
  (forall row, to_csv row = inr tt) ->
  fst (run w config io_config []) = inr tt
  /\ spawned (snd (run w config io_config []))
     = (1 + Z.to_nat (num_runs config))%nat.
Proof.
  intros Hex Hrc Hparse Hpp Hcsv.
  rewrite core_cases, Hex, Hrc. cbn [negb Z.eqb].
  destruct (collect_all_ok w config (Z.to_nat (num_runs config)) 1 Hparse)
    as (ss & -> & Hlen).
  cbn [fst snd]. cbv zeta.
  destruct (Hpp (num_cols config) (map fst ss) (map snd ss)) as [stats ->].
  destruct (output_csv_file io_config) as [file|]; cbn [fst snd].
  - split; [apply Hcsv|].
    rewrite !spawned_app, spawned_repeat. cbn [spawned]. lia.
  - split; [reflexivity|].
    rewrite !spawned_app, spawned_repeat. cbn [spawned]. lia.
Qed.

End Numbering.

(** ** The entry point and the sweep *)

Arguments MakeDirs {F} path.
Arguments Progress {F} variant build_type precision phase.
Arguments Invocation {F} config io_config outcome events.
Arguments started {F} log.

(** [_main] replaces every field of the two default configurations: what
    [core] receives is made of the arguments of [_main] alone. *)
Lemma main_ignores_defaults F float print_performance to_csv
    (d d' : FortranConfig) (di di' : IOConfig) w
    build_dir precision variant nproma num_cols num_runs num_threads
    host_alias output_csv_file :
  _main F float print_performance to_csv d di w build_dir precision variant
    nproma num_cols num_runs num_threads host_alias output_csv_file
  = core F float print_performance to_csv w
      {| build_dir := build_dir; precision := precision; variant := variant;
         nproma := nproma; num_cols := num_cols; num_runs := num_runs;
         num_threads := num_threads |}
      {| output_csv_file := output_csv_file; host_name := host_alias |}
  /\ _main F float print_performance to_csv d di w build_dir precision variant
       nproma num_cols num_runs num_threads host_alias output_csv_file
     = _main F float print_performance to_csv d' di' w build_dir precision
         variant nproma num_cols num_runs num_threads host_alias
         output_csv_file.
Proof. split; reflexivity. Qed.

Section SweepFacts.

Variable F : Type.
Variable float : string -> option F.
Variable print_performance : Z -> list F -> list F -> result (F * F * F * F).
Variable to_csv : csv_row F -> result unit.
Variable default_fortran_config : FortranConfig.
Variable default_io_config : IOConfig.
Variable makedirs : string -> result unit.
Variable w : World.
Variable st : Settings.

Local Abbreviation Sw' := (Sw F).
Local Abbreviation the_sweep :=
  (sweep F float print_performance to_csv default_fortran_config
     default_io_config makedirs w st).
Local Abbreviation the_variant :=
  (run_variant F float print_performance to_csv default_fortran_config
     default_io_config w st).

(** The steps of the sweep, laid out in advance. *)
Inductive step : Type :=
| DoMakeDirs (path : string)
| DoProgress (variant build_type precision phase : string)
| DoMain (config : FortranConfig) (io_config : IOConfig).

Definition outline (a : action F) : step :=
  match a with
  | MakeDirs p => DoMakeDirs p
  | Progress v b p ph => DoProgress v b p ph
  | Invocation c io _ _ => DoMain c io
  end.

Definition csv_of (build_type : string) : string :=
  Py.path_join (Py.path_join (output_dir_parent st) [build_type])
    ["performance.csv"].

Definition plan_variant (build_type precision : string)
    (item : string * list (string * Z)) : list step :=
  let '(variant, options) := item in
  DoProgress variant build_type precision "start"
  :: match getitem options "nproma", getitem options "num_threads" with
     | inr np, inr nt =>
         [DoMain
            {| build_dir :=
                 Py.path_join (build_dir_parent st) [build_type; precision];
               precision := precision; variant := variant; nproma := np;
               num_cols := sweep_num_cols st; num_runs := sweep_num_runs st;
               num_threads := nt |}
            {| output_csv_file := Some (csv_of build_type);
               host_name := Some (host_alias st) |};
          DoProgress variant build_type precision "end"]
     | _, _ => []
     end.

Definition plan_precision (build_type precision : string) : list step :=
  DoMakeDirs (Py.path_join (output_dir_parent st) [build_type])
  :: flat_map (plan_variant build_type precision) (variants st).

Definition plan : list step :=
  flat_map (fun build_type =>
              flat_map (plan_precision build_type) (precision_l st))
    (build_type_l st).

(** An action that went well. *)
Definition went_well (a : action F) : Prop :=
  match a with
  | MakeDirs p => makedirs p = inr tt
  | Progress _ _ _ _ => True
  | Invocation _ _ outcome _ => outcome = inr tt
  end.

(** An invocation in the journal is what [core] does with the recorded
    configurations when some number of children was started before. *)
Definition genuine (a : action F) : Prop :=
  match a with
  | Invocation config io_config outcome events =>
      exists k,
        core F float print_performance to_csv (shift k w) config io_config []
        = (outcome, events)
  | _ => True
  end.

(** The way a computation of the sweep can end with exception [e] after the
    actions [new]: its last action raised [e], or one of the two options was
    missing after the announcement of a variant. *)
Definition stopped_by (e : exn) (new : list (action F)) : Prop :=
  exists init last,
    new = init ++ [last] /\ Forall went_well init
    /\ match last with
       | MakeDirs p => makedirs p = inl e
       | Invocation _ _ outcome _ => outcome = inl e
       | Progress _ _ _ phase =>
           phase = "start"
           /\ (e = Raised "KeyError" "nproma"
               \/ e = Raised "KeyError" "num_threads")
       end.

(** A computation follows a list of steps if it only appends actions to the
    journal, these are the first of the steps in order, all of them when it
    returns, and if it stops at the first action that goes wrong. *)
Definition follows (m : Sw' unit) (steps : list step) : Prop :=
  forall log r log',
    m log = (r, log') ->
    exists new rest,
      log' = log ++ new /\ steps = map outline new ++ rest
      /\ Forall genuine new
      /\ (r = inr tt -> rest = [] /\ Forall went_well new)
      /\ (forall e, r = inl e -> stopped_by e new).

Lemma follows_for_each {A} (l : list A) (body : A -> Sw' unit)
    (steps : A -> list step) :
  (forall x, In x l -> follows (body x) (steps x)) ->
  follows (for_each F l body) (flat_map steps l).
Proof.
  induction l as [|x l IH]; intros Hbody log r log' Hrun.
  - injection Hrun as <- <-. exists [], [].
    rewrite app_nil_r. repeat split; auto. intros e He. discriminate.
  - cbn [for_each] in Hrun. unfold sw_bind in Hrun.
    destruct (body x log) as [[e|[]] log1] eqn:Hx.
    + injection Hrun as <- <-.
      destruct (Hbody x (or_introl eq_refl) _ _ _ Hx)
        as (new & rest & -> & Hsteps & Hgen & _ & Hstop).
      exists new, (rest ++ flat_map steps l).
      cbn [flat_map]. rewrite Hsteps, <- app_assoc.
      repeat split; auto; discriminate.
    + destruct (Hbody x (or_introl eq_refl) _ _ _ Hx)
        as (new1 & rest1 & -> & Hsteps1 & Hgen1 & Hok1 & _).
      destruct (Hok1 eq_refl) as [-> Hwell1].
      destruct (IH (fun y Hy => Hbody y (or_intror Hy)) _ _ _ Hrun)
        as (new2 & rest2 & -> & Hsteps2 & Hgen2 & Hok2 & Hstop2).
      exists (new1 ++ new2), rest2.
      cbn [flat_map]. rewrite Hsteps1, Hsteps2, app_nil_r, map_app, <- !app_assoc.
      repeat split; auto.
      * apply Forall_app. now split.
      * now apply Hok2.
      * apply Forall_app. split; [exact Hwell1 | now apply Hok2].
      * intros e He. destruct (Hstop2 e He) as (init & last & -> & Hinit & Hlast).
        exists (new1 ++ init), last. rewrite <- app_assoc.
        repeat split; auto. apply Forall_app. now split.
Qed.

Lemma getitem_error options key e :
  getitem options key = inl e -> e = Raised "KeyError" key.
Proof.
  induction options as [|[k v] o IH]; simpl; [congruence|].
  destruct (String.eqb k key); [discriminate | exact IH].
Qed.

Lemma follows_run_variant build_type precision item :
  follows
    (the_variant build_type precision
       (Py.path_join (build_dir_parent st) [build_type; precision])
       (csv_of build_type) item)
    (plan_variant build_type precision item).
Proof.
  destruct item as [variant options]. intros log r log' Hrun.
  unfold run_variant, plan_variant in *.
  unfold sw_bind at 1 in Hrun. unfold print_progress at 1 in Hrun.
  unfold sw_bind at 1 in Hrun. unfold sw_lift at 1 in Hrun.
  destruct (getitem options "nproma") as [e1|np] eqn:Hnp.
  { injection Hrun as <- <-.
    exists [Progress variant build_type precision "start"], [].
    repeat split; try discriminate; [repeat constructor|].
    intros e He. injection He as <-.
    exists [], (Progress variant build_type precision "start").
    repeat split; auto. left. now apply getitem_error in Hnp. }
  unfold sw_bind at 1 in Hrun. unfold sw_lift at 1 in Hrun.
  destruct (getitem options "num_threads") as [e2|nt] eqn:Hnt.
  { injection Hrun as <- <-.
    exists [Progress variant build_type precision "start"], [].
    repeat split; try discriminate; [repeat constructor|].
    intros e He. injection He as <-.
    exists [], (Progress variant build_type precision "start").
    repeat split; auto. right. now apply getitem_error in Hnt. }
  unfold sw_bind at 1 in Hrun. unfold call_main at 1 in Hrun.
  match type of Hrun with context [Invocation ?c ?io ?o ?tr] =>
    set (inv := @Invocation F c io o tr) in *;
    assert (Hinv : outline inv
                   = DoMain
                       {| build_dir :=
                            Py.path_join (build_dir_parent st) [build_type; precision];
                          precision := precision; variant := variant; nproma := np;
                          num_cols := sweep_num_cols st;
                          num_runs := sweep_num_runs st; num_threads := nt |}
                       {| output_csv_file := Some (csv_of build_type);
                          host_name := Some (host_alias st) |}) by reflexivity;
    assert (Hout : match inv with Invocation _ _ o' _ => o' = o | _ => False end)
      by reflexivity;
    assert (Hgen : genuine inv)
      by (exists (started (log ++ [Progress variant build_type precision "start"]));
          apply surjective_pairing)
  end.
  clearbody inv.
  match type of Hout with context [_ = ?o] => destruct o as [e|[]] eqn:Ho end.
  - injection Hrun as <- <-.
    exists [Progress variant build_type precision "start"; inv],
           [DoProgress variant build_type precision "end"].
    rewrite <- app_assoc. cbn [map outline app]. rewrite Hinv.
    repeat split; try discriminate; [repeat constructor; exact Hgen|].
    intros e' He'. injection He' as <-.
    exists [Progress variant build_type precision "start"], inv.
    repeat split; auto.
    + repeat constructor.
    + destruct inv; try contradiction. exact Hout.
  - unfold print_progress in Hrun. injection Hrun as <- <-.
    exists [Progress variant build_type precision "start"; inv;
            Progress variant build_type precision "end"], [].
    rewrite <- !app_assoc. cbn [map outline app]. rewrite Hinv.
    repeat split; try discriminate.
    + repeat constructor. exact Hgen.
    + repeat constructor. destruct inv; try contradiction. exact Hout.
Qed.

Lemma follows_sweep : follows the_sweep plan.
Proof.
  unfold sweep, plan. apply follows_for_each. intros build_type _.
  apply follows_for_each. intros precision _.
  intros log r log' Hrun. unfold sw_bind at 1 in Hrun.
  unfold call_makedirs at 1 in Hrun. unfold plan_precision.
  set (dir := Py.path_join (output_dir_parent st) [build_type]) in *.
  destruct (makedirs dir) as [e|[]] eqn:Hmk.
  - injection Hrun as <- <-.
    exists [MakeDirs dir],
           (flat_map (plan_variant build_type precision) (variants st)).
    repeat split; try discriminate; [repeat constructor|].
    intros e' He'. injection He' as <-. exists [], (MakeDirs dir).
    repeat split; auto.
  - pose proof (follows_for_each (variants st)
                  (the_variant build_type precision
                     (Py.path_join (build_dir_parent st) [build_type; precision])
                     (csv_of build_type))
                  (plan_variant build_type precision)
                  (fun x _ => follows_run_variant build_type precision x)
                  _ _ _ Hrun) as (new & rest & -> & Hsteps & Hgen & Hok & Hstop).
    exists (MakeDirs dir :: new), rest.
    rewrite <- app_assoc. cbn [map outline app]. rewrite Hsteps.
    repeat split; auto.
    + constructor; [exact I | exact Hgen].
    + now apply Hok.
    + constructor; [exact Hmk | now apply Hok].
    + intros e He. destruct (Hstop e He) as (init & last & -> & Hinit & Hlast).
      exists (MakeDirs dir :: init), last. repeat split; auto.
Qed.

(** Where an invocation of the plan gets its configurations from. *)
Lemma plan_invocations config io_config :
  In (DoMain config io_config) plan ->
  exists build_type precision variant options np nt,
    In build_type (build_type_l st) /\ In precision (precision_l st)
    /\ In (variant, options) (variants st)
    /\ getitem options "nproma" = inr np
    /\ getitem options "num_threads" = inr nt
    /\ config = {| build_dir :=
                     Py.path_join (build_dir_parent st) [build_type; precision];
                   precision := precision; variant := variant; nproma := np;
                   num_cols := sweep_num_cols st; num_runs := sweep_num_runs st;
                   num_threads := nt |}
    /\ io_config = {| output_csv_file := Some (csv_of build_type);
                      host_name := Some (host_alias st) |}.
Proof.
  unfold plan. intros Hin.
  apply in_flat_map in Hin. destruct Hin as (bt & Hbt & Hin).
  apply in_flat_map in Hin. destruct Hin as (pr & Hpr & Hin).
  unfold plan_precision in Hin. destruct Hin as [Hin|Hin]; [discriminate|].
  apply in_flat_map in Hin. destruct Hin as ([v opts] & Hv & Hin).
  unfold plan_variant in Hin. destruct Hin as [Hin|Hin]; [discriminate|].
  destruct (getitem opts "nproma") as [|np] eqn:Hnp; [destruct Hin|].
  destruct (getitem opts "num_threads") as [|nt] eqn:Hnt; [destruct Hin|].
  destruct Hin as [Hin|[Hin|[]]]; [|discriminate].
  injection Hin as <- <-.
  exists bt, pr, v, opts, np, nt. repeat split; assumption.
Qed.


(** X12.  Every call of [_main] in the sweep hands [core] a configuration
    made of the settings alone: the build directory of its build type and
    precision, the variant with the block size and thread count of its
    options, the common numbers of columns and runs.  The output file is
    [performance.csv] in the output directory of the build type, so the rows
    of all precisions and variants of one build type go to one file; the
    host name is always the alias.  Every child of the call is started with
    the arguments [core] makes of that configuration. *)
Theorem sweep_invocations r log config io_config outcome events :
  the_sweep [] = (r, log) ->
  In (Invocation config io_config outcome events) log ->
  (exists build_type precision variant options np nt,
     In build_type (build_type_l st) /\ In precision (precision_l st)
     /\ In (variant, options) (variants st)
     /\ getitem options "nproma" = inr np
     /\ getitem options "num_threads" = inr nt
     /\ config = {| build_dir :=
                      Py.path_join (build_dir_parent st) [build_type; precision];
                    precision := precision; variant := variant; nproma := np;
                    num_cols := sweep_num_cols st; num_runs := sweep_num_runs st;
                    num_threads := nt |}
     /\ io_config = {| output_csv_file := Some (csv_of build_type);
                       host_name := Some (host_alias st) |})
  /\ (forall argv, In (Spawn argv) events -> argv = argv_of w config)
  /\ (forall row, In (ToCsv row) events ->
        exists build_type,
          In build_type (build_type_l st)
          /\ csv_file F row = csv_of build_type
          /\ csv_host F row = Some (host_alias st)).
Proof.
  intros Hrun Hin.
  destruct (follows_sweep _ _ _ Hrun)
    as (new & rest & Hlog & Hplan & Hgen & _ & _).
  cbn [app] in Hlog. subst log.
  assert (Hconf : In (DoMain config io_config) plan).
  { rewrite Hplan. apply in_or_app. left.
    change (DoMain config io_config)
      with (outline (Invocation config io_config outcome events)).
    now apply in_map. }
  pose proof (plan_invocations _ _ Hconf) as Hwhere.
  rewrite Forall_forall in Hgen. destruct (Hgen _ Hin) as [k Hcore].
  split; [exact Hwhere|]. split.
  - intros argv Hargv.
    exact (core_spawns _ _ _ _ _ _ _ _ _ _ Hcore Hargv).
  - intros row Hrow.
    destruct Hwhere as (bt & pr & v & opts & np & nt & Hbt & _ & _ & _ & _ & _ & Hio).
    exists bt. split; [exact Hbt|].
    destruct (core_trace_shape _ _ _ _ _ _ _ _ _ Hcore)
      as (j & tail & Htr & _ & Htail).
    rewrite Htr in Hrow. apply in_app_or in Hrow. destruct Hrow as [Hrow|Hrow].
    { apply repeat_spec in Hrow. discriminate. }
    destruct Htail as [->|(_ & ss & _ & _ & [->|(stats & _ & ->)])].
    + destruct Hrow.
    + destruct Hrow as [Hrow|[]]. discriminate.
    + destruct Hrow as [Hrow|Hrow]; [discriminate|].
      unfold persisted in Hrow. rewrite Hio in Hrow. cbn [output_csv_file] in Hrow.
      destruct Hrow as [Hrow|[]]. injection Hrow as <-.
      destruct stats as [[[? ?] ?] ?]. split; reflexivity.
Qed.






End SweepFacts.

(** ** The sweep on LUMI *)


(** ** Closed instances of the further properties *)

Lemma core_first_unparsable_witness :
  Fixture.run (Scenario.garbled_from 2) (Fixture.three_runs "fortran")
    Fixture.with_csv []
  = (inl IndexError,
     repeat (Spawn ["/opt/drivers/fortran/bin/dwarf-cloudsc-fortran"; "1"; "64"; "64"])
       3).
Proof.
  apply (core_first_unparsable _ Sample.float Sample.print_performance
           Sample.to_csv (Scenario.garbled_from 2) (Fixture.three_runs "fortran")
           Fixture.with_csv 1 IndexError).
  - reflexivity.
  - reflexivity.
  - vm_compute. lia.
  - intros i Hi. assert (i = O) as -> by lia. eexists. reflexivity.
  - reflexivity.
Defined.

Lemma core_no_runs_witness :
  Fixture.run Fixture.healthy Scenario.no_runs Fixture.no_csv []
  = (inr tt,
     [Spawn ["/opt/drivers/fortran/bin/dwarf-cloudsc-fortran"; "1"; "8"; "8"];
      PrintPerformance 8 [] []]).
Proof.
  apply (core_no_runs _ Sample.float Sample.print_performance Sample.to_csv
           Fixture.healthy Scenario.no_runs Fixture.no_csv).
  - vm_compute. discriminate.
  - reflexivity.
  - reflexivity.
Defined.

Lemma core_after_runs_witness :
  let sample := (Sample.Finite (Qmake 5 1), Sample.Finite (Qmake 100 1)) in
  let row := row_of _ "performance.csv" Fixture.default_config Fixture.with_csv
               (Sample.Mean [fst sample], Sample.Stddev [fst sample],
                Sample.Mean [snd sample], Sample.Stddev [snd sample]) in
  let a := ["/opt/drivers/fortran/bin/dwarf-cloudsc-fortran"; "1"; "1"; "1"] in
  core _ Sample.float Sample.print_performance Scenario.read_only
    Fixture.healthy Fixture.default_config Fixture.with_csv []
  = (inl (Raised "PermissionError" "performance.csv"),
     [Spawn a; Spawn a; PrintPerformance 1 [fst sample] [snd sample]; ToCsv row]).
Proof.
  intros sample row a.
  destruct (core_after_runs _ Sample.float Sample.print_performance
              Scenario.read_only Fixture.healthy Fixture.default_config
              Fixture.with_csv [sample] eq_refl eq_refl eq_refl) as [_ H].
  - intros [|[|i]] s Hs; simpl in Hs; try discriminate.
    injection Hs as <-. reflexivity.
  - exact (H (Sample.Mean [fst sample], Sample.Stddev [fst sample],
              Sample.Mean [snd sample], Sample.Stddev [snd sample])
             "performance.csv" eq_refl eq_refl).
Defined.

Lemma core_warm_up_outcome_witness :
  Fixture.run Scenario.killed_warm_up Fixture.default_config Fixture.with_csv []
  = (inl UnicodeDecodeError,
     [Spawn ["/opt/drivers/fortran/bin/dwarf-cloudsc-fortran"; "1"; "1"; "1"]])
  /\ Fixture.run Fixture.failing_warm_up Fixture.default_config Fixture.with_csv []
     = (inl (RuntimeError "segfault"),
        [Spawn ["/opt/drivers/fortran/bin/dwarf-cloudsc-fortran"; "1"; "1"; "1"]]).
Proof.
  split.
  - apply (core_warm_up_outcome _ Sample.float Sample.print_performance
             Sample.to_csv Scenario.killed_warm_up Fixture.default_config
             Fixture.with_csv); [reflexivity | discriminate].
  - apply (core_warm_up_outcome _ Sample.float Sample.print_performance
             Sample.to_csv Fixture.failing_warm_up Fixture.default_config
             Fixture.with_csv); [reflexivity | discriminate].
Defined.

Lemma core_reads_one_stream_witness :
  Fixture.run Scenario.noisy (Fixture.three_runs "fortran") Fixture.with_csv []
  = Fixture.run Fixture.healthy (Fixture.three_runs "fortran") Fixture.with_csv [].
Proof.
  apply (core_reads_one_stream _ Sample.float Sample.print_performance
           Sample.to_csv Scenario.noisy Fixture.healthy
           (Fixture.three_runs "fortran") Fixture.with_csv).
  - reflexivity.
  - reflexivity.
  - reflexivity.
  - reflexivity.
Defined.

Lemma core_succeeds_witness :
  fst (Fixture.run Fixture.healthy (Fixture.three_runs "fortran")
         Fixture.with_csv []) = inr tt
  /\ spawned (snd (Fixture.run Fixture.healthy (Fixture.three_runs "fortran")
                     Fixture.with_csv [])) = 4%nat.
Proof.
  apply (core_succeeds _ Sample.float Sample.print_performance Sample.to_csv
           Fixture.healthy (Fixture.three_runs "fortran") Fixture.with_csv).
  - reflexivity.
  - reflexivity.
  - intros k argv. eexists. reflexivity.
  - intros cols runtime_l mflops_l. eexists. reflexivity.
  - reflexivity.
Defined.


Lemma sweep_invocations_witness :
  let config :=
    {| build_dir := "/build/release/double"; precision := "double";
       variant := "fortran"; nproma := 8; num_cols := 16; num_runs := 2;
       num_threads := 4 |} in
  let io_config :=
    {| output_csv_file := Some "/data/release/performance.csv";
       host_name := Some "laptop" |} in
  let events := snd (Fixture.run Fixture.healthy config io_config []) in
  In (Invocation config io_config (inr tt) events)
    (snd (Scenario.small_sweep Fixture.healthy []))
  /\ forall argv, In (Spawn argv) events ->
       argv = ["/build/release/double/bin/dwarf-cloudsc-fortran"; "4"; "16"; "8"].
Proof.
  intros config io_config events.
  assert (Hin : In (Invocation config io_config (inr tt) events)
                  (snd (Scenario.small_sweep Fixture.healthy [])))
    by (vm_compute; auto).
  split; [exact Hin|].
  exact (proj1 (proj2
           (sweep_invocations _ Sample.float Sample.print_performance
              Sample.to_csv Fixture.default_config Fixture.no_csv
              Scenario.makedirs_ok Fixture.healthy Scenario.small
              _ _ config io_config (inr tt) events
              (surjective_pairing (Scenario.small_sweep Fixture.healthy [])) Hin))).
Defined.



(** ** The command line defaults *)

(** X10.  Started without options, the driver looks for
    [fortran/bin/dwarf-cloudsc-fortran] below its own directory and starts it
    at most twice, each time with the arguments 1, 1 and 1: the default block
    size 32 gives way to the default single column.  It writes no row. *)
Theorem main_without_options_runs F float print_performance to_csv d di w r tr :
  main_without_options F float print_performance to_csv d di w [] = (r, tr) ->
  (forall argv, In (Spawn argv) tr ->
     argv = [Py.path_join (module_dir w) ["fortran"; "bin/dwarf-cloudsc-fortran"];
             "1"; "1"; "1"])
  /\ (spawned tr <= 2)%nat
  /\ (forall row, ~ In (ToCsv row) tr)
  /\ (r = inr tt -> spawned tr = 2%nat).
Proof.
  unfold main_without_options, _main. intros Hrun.
  destruct (core_trace_shape _ _ _ _ _ _ _ _ _ Hrun)
    as (k & tail & Htr & Hk & Htail).
  assert (Htail' : forall argv row,
            ~ In (Spawn argv) tail /\ ~ In (@ToCsv F row) tail).
  { intros argv row.
    destruct Htail as [->|(_ & ss & _ & _ & [->|(stats & _ & ->)])].
    - split; intros [].
    - split; intros [H|[]]; discriminate.
    - split; intros [H|[]]; discriminate. }
  split; [|split; [|split]].
  - intros argv Hin. exact (core_spawns _ _ _ _ _ _ _ _ _ _ Hrun Hin).
  - rewrite Htr, spawned_app, spawned_repeat.
    assert (spawned tail = O) as ->; [|simpl in Hk; lia].
    destruct Htail as [->|(_ & ss & _ & _ & [->|(stats & _ & ->)])]; reflexivity.
  - intros row Hin. rewrite Htr in Hin. apply in_app_or in Hin.
    destruct Hin as [Hin|Hin].
    + apply repeat_spec in Hin. discriminate.
    + exact (proj2 (Htail' [] row) Hin).
  - intros ->. rewrite core_cases in Hrun.
    change (Z.to_nat (num_runs (main_config d "fortran" "double" "fortran" 32 1 1 1)))
      with 1%nat in Hrun.
    destruct (negb _); [discriminate|].
    destruct (_ =? 0); [|destruct (Py.decode _); discriminate].
    cbn [collect] in Hrun.
    destruct (parse_output F float _ _) as [e|s]; [discriminate|].
    cbn [snd fst] in Hrun. cbv zeta in Hrun.
    destruct (print_performance _ _ _); [discriminate|].
    change (output_csv_file (main_io_config di None None)) with (@None string)
      in Hrun.
    injection Hrun as <-. reflexivity.
Qed.

Lemma main_without_options_runs_witness :
  main_without_options _ Sample.float Sample.print_performance Sample.to_csv
    (Fixture.three_runs "cuda") Fixture.with_csv Fixture.healthy []
  = (inr tt,
     [Spawn ["/opt/drivers/fortran/bin/dwarf-cloudsc-fortran"; "1"; "1"; "1"];
      Spawn ["/opt/drivers/fortran/bin/dwarf-cloudsc-fortran"; "1"; "1"; "1"];
      PrintPerformance 1 [Sample.Finite (Qmake 5 1)] [Sample.Finite (Qmake 100 1)]])
  /\ spawned (snd (main_without_options _ Sample.float Sample.print_performance
                     Sample.to_csv (Fixture.three_runs "cuda") Fixture.with_csv
                     Fixture.healthy [])) = 2%nat.
Proof.
  split; [reflexivity|].
  apply (main_without_options_runs _ Sample.float Sample.print_performance
           Sample.to_csv (Fixture.three_runs "cuda") Fixture.with_csv
           Fixture.healthy (inr tt) _ eq_refl).
  reflexivity.
Defined.
